(** * order_api: the order views and their effect on stock, items and totals

    A shallow embedding of [orders/models.py] and of the request handlers of
    [orders/views.py] ([OrderViewSet]): [complete], [add_item], [remove_item],
    [cancel] and [destroy].

    Conventions of the embedding.
    - The database is an explicit value [DB]; every handler is a function
      [DB -> ... -> DB * Outcome] returning the committed database and either
      the HTTP response or the exception that escaped the view.
    - A table keyed by its primary key is a [gmap Z _] (products, orders).
      The order-item table is the list of its rows in ascending primary-key
      order: [.first()] on an unordered queryset orders by primary key, so it
      is the first matching row of the list; [filter(pk=item.pk).update(..)]
      and [item.delete()] act on the position of that row; [create] appends.
    - [DecimalField(decimal_places=2)] values are integers counting
      hundredths, with exact arithmetic (the [max_digits] bound of the
      storage engine is not modelled).
    - [timezone.now()] is an input [now] of the handler: one reading of the
      clock per request. *)

From stdpp Require Import base option list gmap strings sorting.
From Stdlib Require Import ZArith Lia.

Local Open Scope Z_scope.

(** ** orders/models.py *)

(** [Order.STATUS_CHOICES] *)
Inductive Status := PENDING | COMPLETED | CANCELED.

(** [Order.CHANGE_STATUS] *)
Inductive ChangeType :=
  | CHANGE_UPDATE | CHANGE_COMPLETED | CHANGE_CANCELED | CHANGE_DELETE
  | CHANGE_CREATED.

Global Instance Status_eq_dec : EqDecision Status.
Proof. solve_decision. Defined.

Global Instance ChangeType_eq_dec : EqDecision ChangeType.
Proof. solve_decision. Defined.

(** The value stored in the [status] column. *)
Definition status_value (s : Status) : string :=
  match s with
  | PENDING => "pendiente"
  | COMPLETED => "completada"
  | CANCELED => "cancelada"
  end.

(** A row of [Order]; the primary key [id] is the key of the table. *)
Record Order := mkOrder {
  customer_name : string;
  total : Z;
  status : Status;
  created_at : Z;
  last_change_at : Z;
  last_change_type : ChangeType
}.

(** The concrete, non primary-key fields that [class Order] declares. These
    are the only names [save(update_fields=...)] accepts. *)
Definition Order_fields : list string :=
  ["customer_name"; "total"; "status"; "created_at"; "last_change_at";
   "last_change_type"].

(** A row of [OrderItem]; [order_id] and [product_id] are the two foreign
    keys. [quantity] is a [PositiveIntegerField]. *)
Record OrderItem := mkOrderItem {
  order_id : Z;
  product_id : Z;
  quantity : Z;
  price : Z
}.

(** [OrderItem.total] (the property). *)
Definition OrderItem_total (it : OrderItem) : Z := quantity it * price it.

(** Modelled from the spec: [products.models.Product] is imported by the
    views but is not among the sources. Section 3 of the specification gives
    it the fields id, name, price and stock; the views read [name], [price]
    and [stock] and write [stock]. *)
Record Product := mkProduct {
  name : string;
  unit_price : Z;
  stock : Z
}.

(** Modelled from the spec: [inventory.models.InventoryMovement] is imported
    by the views but is not among the sources. Section 3 of the
    specification gives it a product reference, a quantity, a movement type,
    a reason and a timestamp; the views set the first four on [create], and
    the timestamp is the time of creation. *)
Record InventoryMovement := mkMovement {
  mv_product : Z;
  mv_quantity : Z;
  movement_type : string;
  reason : string;
  timestamp : Z
}.

(** ** The database *)

Record DB := mkDB {
  products : gmap Z Product;
  orders : gmap Z Order;
  items : list OrderItem;
  movements : list InventoryMovement
}.

Definition set_products (f : gmap Z Product → gmap Z Product) (db : DB) : DB :=
  mkDB (f (products db)) (orders db) (items db) (movements db).

Definition set_orders (f : gmap Z Order → gmap Z Order) (db : DB) : DB :=
  mkDB (products db) (f (orders db)) (items db) (movements db).

Definition set_items (f : list OrderItem → list OrderItem) (db : DB) : DB :=
  mkDB (products db) (orders db) (f (items db)) (movements db).

Definition set_movements
    (f : list InventoryMovement → list InventoryMovement) (db : DB) : DB :=
  mkDB (products db) (orders db) (items db) (f (movements db)).

(** ** Responses and exceptions *)

(** One entry of the [insufficient] list built by [complete]. *)
Record Shortfall := mkShortfall {
  sf_product_id : Z;
  sf_name : string;
  requested : Z;
  available : Z
}.

(** The body of a [Response]. [OrderData] stands for
    [self.get_serializer(order).data]. *)
Inductive Data :=
  | OrderData (o : Order)
  | Detail (detail : string)
  | DetailAvailable (detail : string) (avail : Z)
  | DetailItems (detail : string) (insufficient : list Shortfall)
  | NoData.

Record Response := mkResponse { data : Data; status_code : Z }.

Inductive Exception := Http404 | DoesNotExist | ValueError | DatabaseError.

Inductive Outcome :=
  | Return (r : Response)
  | Raise (e : Exception).

Definition HTTP_200_OK : Z := 200.
Definition HTTP_204_NO_CONTENT : Z := 204.
Definition HTTP_400_BAD_REQUEST : Z := 400.

(** ** Model instances and the ORM calls the views make *)

(** The Python object the view holds: the primary key, the loaded field
    values, and the plain attribute [deleted_at] that [destroy] assigns
    ([None] while it has not been assigned). *)
Record Instance := mkInstance {
  pk : Z;
  fields : Order;
  deleted_at : option Z
}.

Definition with_status (s : Status) (o : Order) : Order :=
  mkOrder (customer_name o) (total o) s (created_at o) (last_change_at o)
          (last_change_type o).

Definition with_total (t : Z) (o : Order) : Order :=
  mkOrder (customer_name o) t (status o) (created_at o) (last_change_at o)
          (last_change_type o).

Definition with_last_change_at (t : Z) (o : Order) : Order :=
  mkOrder (customer_name o) (total o) (status o) (created_at o) t
          (last_change_type o).

Definition with_last_change_type (c : ChangeType) (o : Order) : Order :=
  mkOrder (customer_name o) (total o) (status o) (created_at o)
          (last_change_at o) c.

Definition with_customer_name (n : string) (o : Order) : Order :=
  mkOrder n (total o) (status o) (created_at o) (last_change_at o)
          (last_change_type o).

Definition with_created_at (t : Z) (o : Order) : Order :=
  mkOrder (customer_name o) (total o) (status o) t (last_change_at o)
          (last_change_type o).

(** Attribute assignment on the instance: [order.status = s] and so on. *)
Definition assign (f : Order → Order) (inst : Instance) : Instance :=
  mkInstance (pk inst) (f (fields inst)) (deleted_at inst).

Definition assign_deleted_at (t : Z) (inst : Instance) : Instance :=
  mkInstance (pk inst) (fields inst) (Some t).

(** [self.get_object()]: the order with that primary key, or 404. *)
Definition get_object (db : DB) (k : Z) : Exception + Instance :=
  match orders db !! k with
  | Some o => inr (mkInstance k o None)
  | None => inl Http404
  end.

(** Copy the column [f] of the instance into the row. *)
Definition write_field (src : Order) (f : string) (row : Order) : Order :=
  if String.eqb f "customer_name" then with_customer_name (customer_name src) row
  else if String.eqb f "total" then with_total (total src) row
  else if String.eqb f "status" then with_status (status src) row
  else if String.eqb f "created_at" then with_created_at (created_at src) row
  else if String.eqb f "last_change_at"
       then with_last_change_at (last_change_at src) row
  else if String.eqb f "last_change_type"
       then with_last_change_type (last_change_type src) row
  else row.

(** [order.save(update_fields=fs)]. Django first checks the names: one that
    is not a concrete field of the model raises [ValueError] before anything
    is written. Otherwise exactly the named columns of the row are updated;
    an update that touches no row raises [DatabaseError]. *)
Definition save (db : DB) (inst : Instance) (update_fields : list string)
    : Exception + DB :=
  if forallb (λ f, bool_decide (f ∈ Order_fields)) update_fields then
    match orders db !! pk inst with
    | Some row =>
        inr (set_orders
               (insert (pk inst)
                  (foldr (write_field (fields inst)) row update_fields)) db)
    | None => inl DatabaseError
    end
  else inl ValueError.

(** [order.refresh_from_db()] *)
Definition refresh_from_db (db : DB) (inst : Instance) : Exception + Instance :=
  match orders db !! pk inst with
  | Some o => inr (mkInstance (pk inst) o (deleted_at inst))
  | None => inl DoesNotExist
  end.

(** [order.items.select_related("product").all()]: the rows of the order
    joined with their product (an inner join, the foreign key not being
    nullable). *)
Definition order_items (db : DB) (k : Z) : list (OrderItem * Product) :=
  omap (λ it, if decide (order_id it = k)
              then (λ p, (it, p)) <$> products db !! product_id it
              else None) (items db).

(** [OrderItem.objects.select_for_update().filter(order=order,
    product=product).first()]: position and value of the first such row. *)
Definition first_item (db : DB) (k p : Z) : option (nat * OrderItem) :=
  list_find (λ it, order_id it = k ∧ product_id it = p) (items db).

(** The filter [product=p, movement_type="salida", reason="venta",
    timestamp__gte=since] on a movement. *)
Definition sale_outflow_since (p since : Z) (mv : InventoryMovement) : bool :=
  bool_decide (mv_product mv = p)
  && String.eqb (movement_type mv) "salida"
  && String.eqb (reason mv) "venta"
  && bool_decide (since ≤ timestamp mv).

(** [InventoryMovement.objects.filter(product=.., movement_type="salida",
    reason="venta", timestamp__gte=since).exists()] *)
Definition exists_mv (db : DB) (p since : Z) : bool :=
  existsb (sale_outflow_since p since) (movements db).

(** [Product.objects.filter(pk=p).update(stock=F("stock") + d)] *)
Definition update_stock (p d : Z) (db : DB) : DB :=
  set_products (alter (λ pr, mkProduct (name pr) (unit_price pr) (stock pr + d)) p) db.

(** [InventoryMovement.objects.create(product=p, quantity=q,
    movement_type=ty, reason=r)] at time [now]. *)
Definition create_movement (p q : Z) (ty r : string) (now : Z) (db : DB) : DB :=
  set_movements (λ ms, ms ++ [mkMovement p q ty r now]) db.

(** [Order.objects.filter(pk=k).update(total=F("total") + d)] *)
Definition update_total (k d : Z) (db : DB) : DB :=
  set_orders (alter (λ o, with_total (total o + d) o) k) db.

(** [OrderItem.objects.filter(pk=item.pk).update(quantity=F("quantity") + d)]
    for the row at position [i]. *)
Definition update_quantity (i : nat) (d : Z) (db : DB) : DB :=
  set_items (alter (λ it, mkOrderItem (order_id it) (product_id it)
                                      (quantity it + d) (price it)) i) db.

(** [OrderItem.objects.create(order=k, product=p, quantity=q, price=pr)]:
    the new row gets the greatest primary key. *)
Definition create_item (k p q pr : Z) (db : DB) : DB :=
  set_items (λ l, l ++ [mkOrderItem k p q pr]) db.

(** [item.delete()] for the row at position [i]. *)
Definition delete_item (i : nat) (db : DB) : DB :=
  set_items (delete i) db.

(** ** orders/views.py *)

(** How control leaves a [with transaction.atomic():] block: it falls
    through to the statements after it, it executes [return], or an
    exception escapes it. *)
Inductive Flow :=
  | Next (db : DB)
  | Ret (db : DB) (r : Response)
  | Exc (e : Exception).

(** An exception rolls the block back; falling through or returning
    commits. [rest] is the code after the block. *)
Definition atomic (db : DB) (body : Flow) (rest : DB → DB * Outcome)
    : DB * Outcome :=
  match body with
  | Next db' => rest db'
  | Ret db' r => (db', Return r)
  | Exc e => (db, Raise e)
  end.

Definition bad_request (d : Data) : Response := mkResponse d HTTP_400_BAD_REQUEST.

(** The first loop of [complete]: [already_applied] stays [True] exactly
    when every item of the order has a sale outflow of its product stamped
    at or after [order.created_at]. *)
Definition already_applied (db : DB) (order : Instance) : bool :=
  forallb (λ ip : OrderItem * Product,
             exists_mv db (product_id ip.1) (created_at (fields order)))
          (order_items db (pk order)).

(** The second loop of [complete]: one entry per item whose product has less
    stock than the item asks for. *)
Definition insufficient_items (db : DB) (k : Z) : list Shortfall :=
  omap (λ ip : OrderItem * Product,
          if decide (stock ip.2 < quantity ip.1)
          then Some (mkShortfall (product_id ip.1) (name ip.2)
                                 (quantity ip.1) (stock ip.2))
          else None)
       (order_items db k).

(** The third loop of [complete]: per item, take its quantity from the stock
    and record the sale. *)
Definition reserve_items (now : Z) (its : list (OrderItem * Product)) (db : DB)
    : DB :=
  foldl (λ d (ip : OrderItem * Product),
           create_movement (product_id ip.1) (quantity ip.1) "salida" "venta"
             now (update_stock (product_id ip.1) (- quantity ip.1) d))
        db its.

Definition save_flow (db : DB) (inst : Instance) (update_fields : list string)
    : Flow :=
  match save db inst update_fields with
  | inr db' => Next db'
  | inl e => Exc e
  end.

(** [OrderViewSet.complete] *)
Definition complete (db : DB) (k now : Z) : DB * Outcome :=
  match get_object db k with
  | inl e => (db, Raise e)
  | inr order =>
    if decide (status (fields order) = COMPLETED) then
      (db, Return (bad_request (Detail "Order is already completed.")))
    else if decide (status (fields order) = CANCELED) then
      (db, Return (bad_request (Detail "Canceled orders cannot be completed.")))
    else
      let order' :=
        assign (with_last_change_type CHANGE_COMPLETED)
          (assign (with_last_change_at now)
             (assign (with_status COMPLETED) order)) in
      let mark db1 :=
        save_flow db1 order' ["status"; "last_change_at"; "last_change_type"] in
      atomic db
        (if already_applied db order then mark db
         else
           match insufficient_items db k with
           | (_ :: _) as insufficient =>
               Ret db (bad_request
                         (DetailItems "Insufficient stock for some products."
                                      insufficient))
           | [] => mark (reserve_items now (order_items db k) db)
           end)
        (λ db', (db', Return (mkResponse (OrderData (fields order')) HTTP_200_OK)))
  end.

Definition closed (s : Status) : bool := bool_decide (s ∈ [COMPLETED; CANCELED]).

Definition touch_update (now : Z) (order : Instance) : Instance :=
  assign (with_last_change_type CHANGE_UPDATE)
    (assign (with_last_change_at now) order).

(** The code after the atomic block of [add_item] and [remove_item]. *)
Definition refreshed (order : Instance) (db : DB) : DB * Outcome :=
  match refresh_from_db db order with
  | inr o => (db, Return (mkResponse (OrderData (fields o)) HTTP_200_OK))
  | inl e => (db, Raise e)
  end.

(** [OrderViewSet.add_item]; [p] and [qty] are the validated payload. *)
Definition add_item (db : DB) (k p qty now : Z) : DB * Outcome :=
  match get_object db k with
  | inl e => (db, Raise e)
  | inr order =>
    if closed (status (fields order)) then
      (db, Return (bad_request
                     (Detail "You can't modify a completed/canceled order.")))
    else
      atomic db
        (match products db !! p with
         | None => Exc DoesNotExist
         | Some product =>
           if decide (stock product < qty) then
             Ret db (bad_request
                       (DetailAvailable
                          ("Insufficient stock for '" +:+ name product +:+ "'.")
                          (stock product)))
           else
             let '(used_price, db1) :=
               match first_item db k p with
               | Some (i, item) => (price item, update_quantity i qty db)
               | None => (unit_price product,
                          create_item k p qty (unit_price product) db)
               end in
             let db2 := update_stock p (- qty) db1 in
             let db3 := create_movement p qty "salida" "venta" now db2 in
             let addition := qty * used_price in
             let db4 := update_total k addition db3 in
             save_flow db4 (touch_update now order)
                       ["last_change_at"; "last_change_type"]
         end)
        (refreshed order)
  end.

(** [OrderViewSet.remove_item]; [p] and [dec_qty] are the validated
    payload. *)
Definition remove_item (db : DB) (k p dec_qty now : Z) : DB * Outcome :=
  match get_object db k with
  | inl e => (db, Raise e)
  | inr order =>
    if closed (status (fields order)) then
      (db, Return (bad_request
                     (Detail "You can't modify a completed/canceled order.")))
    else
      atomic db
        (match products db !! p with
         | None => Exc DoesNotExist
         | Some product =>
           match first_item db k p with
           | None =>
               Ret db (bad_request
                         (Detail ("Product '" +:+ name product
                                  +:+ "' is not in this order.")))
           | Some (i, item) =>
             let remove_units := Z.min dec_qty (quantity item) in
             let used_price := price item in
             let db1 := update_stock p remove_units db in
             let db2 := create_movement p remove_units "entrada" "ajuste" now db1 in
             let '(line_total, db3) :=
               if decide (remove_units = quantity item)
               then (quantity item * used_price, delete_item i db2)
               else (remove_units * used_price,
                     update_quantity i (- remove_units) db2) in
             let db4 := update_total k (- line_total) db3 in
             save_flow db4 (touch_update now order)
                       ["last_change_at"; "last_change_type"]
           end
         end)
        (refreshed order)
  end.

(** [OrderViewSet.cancel] *)
Definition cancel (db : DB) (k now : Z) : DB * Outcome :=
  match get_object db k with
  | inl e => (db, Raise e)
  | inr order =>
    if decide (status (fields order) = COMPLETED) then
      (db, Return (bad_request (Detail "Completed orders cannot be canceled.")))
    else if decide (status (fields order) = CANCELED) then
      (db, Return (bad_request (Detail "Order is already canceled.")))
    else
      let order' :=
        assign (with_last_change_type CHANGE_CANCELED)
          (assign (with_last_change_at now)
             (assign (with_status CANCELED) order)) in
      match save db order' ["status"; "last_change_at"; "last_change_type"] with
      | inr db' =>
          (db', Return (mkResponse (OrderData (fields order')) HTTP_200_OK))
      | inl e => (db, Raise e)
      end
  end.

(** The attribute assignments of [destroy], before its [save]. *)
Definition destroy_assign (now : Z) (order : Instance) : Instance :=
  let order1 := assign_deleted_at now order in
  let order2 :=
    if bool_decide (status (fields order1) ∉ [CANCELED; COMPLETED])
    then assign (with_status CANCELED) order1
    else order1 in
  assign (with_last_change_type CHANGE_DELETE)
    (assign (with_last_change_at now) order2).

(** [OrderViewSet.destroy] *)
Definition destroy (db : DB) (k now : Z) : DB * Outcome :=
  match get_object db k with
  | inl e => (db, Raise e)
  | inr order =>
    match save db (destroy_assign now order)
               ["deleted_at"; "status"; "last_change_at"; "last_change_type"] with
    | inr db' => (db', Return (mkResponse NoData HTTP_204_NO_CONTENT))
    | inl e => (db, Raise e)
    end
  end.

(** The five mutating requests, and their dispatch. *)
Inductive Request :=
  | Complete (k : Z)
  | AddItem (k p qty : Z)
  | RemoveItem (k p dec_qty : Z)
  | Cancel (k : Z)
  | Delete (k : Z).

Definition handle (db : DB) (now : Z) (r : Request) : DB * Outcome :=
  match r with
  | Complete k => complete db k now
  | AddItem k p qty => add_item db k p qty now
  | RemoveItem k p dec_qty => remove_item db k p dec_qty now
  | Cancel k => cancel db k now
  | Delete k => destroy db k now
  end.

(** ** A small database for the examples

    Order 1 is pending and holds 5 units of product 1 (price 10.00), of
    which only 3 are in stock; product 1 has a sale outflow stamped after
    the creation of the order. Order 2 is pending and holds 2 units of
    product 2; nothing was ever sold of product 2. Order 3 is completed and
    order 4 canceled. *)
Definition db0 : DB :=
  mkDB (<[1 := mkProduct "pen" 1000 3]> (<[2 := mkProduct "ink" 250 7]> ∅))
       (<[1 := mkOrder "ana" 5000 PENDING 100 105 CHANGE_UPDATE]>
        (<[2 := mkOrder "bob" 500 PENDING 100 100 CHANGE_CREATED]>
         (<[3 := mkOrder "eva" 0 COMPLETED 100 110 CHANGE_COMPLETED]>
          (<[4 := mkOrder "leo" 0 CANCELED 100 110 CHANGE_CANCELED]> ∅))))
       [mkOrderItem 1 1 5 1000; mkOrderItem 2 2 2 250]
       [mkMovement 1 5 "salida" "venta" 105].

(** ** Notions used in the statements *)

(** The row [o] after a handler has written status, time and kind of the
    last change. *)
Definition mark (s : Status) (t : Z) (c : ChangeType) (o : Order) : Order :=
  mkOrder (customer_name o) (total o) s (created_at o) t c.

(** [sum(item.quantity * item.price for item in order.items)] for the order
    with primary key [k]. *)
Definition order_sum (k : Z) (l : list OrderItem) : Z :=
  foldr Z.add 0 (OrderItem_total <$> filter (λ it, order_id it = k) l).

(** Every order's [total] is the sum of its line totals. *)
Definition total_consistent (db : DB) : Prop :=
  ∀ k o, orders db !! k = Some o → total o = order_sum k (items db).

(** Requests served one after the other, each with the time it is served
    at. *)
Definition run (db : DB) (trace : list (Z * Request)) : DB :=
  foldl (λ d (tr : Z * Request), (handle d tr.1 tr.2).1) db trace.

(** Every item of order [k] has a sale outflow of its product stamped at or
    after [since]. *)
Definition sold_since (db : DB) (k since : Z) : Prop :=
  ∀ it, it ∈ items db → order_id it = k →
        exists_mv db (product_id it) since = true.

(** The order a request is addressed to. *)
Definition target (r : Request) : Z :=
  match r with
  | Complete k | AddItem k _ _ | RemoveItem k _ _ | Cancel k | Delete k => k
  end.

(** [db0] after the price of product 2 went from 2.50 to 3.00: the row of
    order 2 still carries 2.50. *)
Definition db_repriced : DB :=
  set_products (insert 2 (mkProduct "ink" 300 7)) db0.

(** [db0] with an empty movement log. *)
Definition db_unsold : DB := set_movements (λ _, []) db0.

(** A row as [Order.objects.create(customer_name=c)] makes it at time [now]:
    the defaults of [class Order]. *)
Definition new_order (c : string) (now : Z) : Order :=
  mkOrder c 0 PENDING now now CHANGE_CREATED.

(** The products and movements of [db0] with a single order, number 7,
    just created. *)
Definition db_new : DB :=
  mkDB (products db0) {[7 := new_order "ana" 100]} [] (movements db0).

(** ** Proof automation *)

(** Unfold the ORM updates down to the four tables. *)
Ltac unfold_db :=
  unfold update_total, update_stock, update_quantity, create_movement,
         create_item, delete_item, set_orders, set_products, set_items,
         set_movements in *;
  cbn [products orders items movements] in *.

(** Exhibit the rewritten row of the pending order [o]. *)
Ltac pending_row o :=
  right; exists o; eexists;
  split; [done|]; split; [done|]; split; [|cbn; reflexivity]; reflexivity.

(** A row of the new item table that is a row of the old one. *)
Ltac same_row := left; eexists; split; [eassumption|done].

(** ** The listing of orders: [OrderViewSet.get_queryset] *)

(** The value stored in the [last_change_type] column. *)
Definition change_value (c : ChangeType) : string :=
  match c with
  | CHANGE_UPDATE => "update"
  | CHANGE_COMPLETED => "completed"
  | CHANGE_CANCELED => "canceled"
  | CHANGE_DELETE => "delete"
  | CHANGE_CREATED => "created"
  end.

(** [request.query_params]: what [.get(key)] returns for each of the six
    keys the view reads, [None] for an absent key. *)
Record QueryParams := mkParams {
  q_status : option string;
  q_date_from : option string;
  q_date_to : option string;
  q_last_change_type : option string;
  q_last_change_from : option string;
  q_last_change_to : option string
}.

(** [if value:] on such a result: an absent key and an empty string are
    both skipped. *)
Definition truthy (v : option string) : option string :=
  match v with
  | Some s => if String.eqb s "" then None else Some s
  | None => None
  end.

(** [order_by("-created_at")] compares two rows of the listing. *)
Definition newest_first (x y : Z * Order) : Prop :=
  created_at y.2 ≤ created_at x.2.

Global Instance newest_first_dec x y : Decision (newest_first x y).
Proof. unfold newest_first. apply _. Defined.

(** [Order.objects.all().order_by("-created_at")]: every row with its
    primary key, the most recently created first (the order among rows
    created at the same instant is the one the sort happens to produce; the
    storage engine promises none). *)
Definition ordered_orders (db : DB) : list (Z * Order) :=
  merge_sort newest_first (map_to_list (orders db)).

(** [qs.filter(<column>=value)] guarded by [if value:]. *)
Definition filter_text (col : Order → string) (v : option string)
    (qs : list (Z * Order)) : list (Z * Order) :=
  match truthy v with
  | Some s => filter (λ ko : Z * Order, col ko.2 = s) qs
  | None => qs
  end.

Section Listing.
(** [django.utils.dateparse.parse_date] is a library function: it returns a
    date, or [None] for a text that is not formatted as a date, or raises
    for a well formatted text that names no date. Dates are day numbers. *)
Variable parse_date : string → Exception + option Z.
(** The [__date] transform of a [DateTimeField]: the day of an instant. *)
Variable date : Z → Z.

(** [qs.filter(<column>__date__gte=d)] guarded by [if raw:] and [if d:]. *)
Definition filter_date_gte (col : Order → Z) (v : option string)
    (qs : list (Z * Order)) : Exception + list (Z * Order) :=
  match truthy v with
  | Some raw =>
      match parse_date raw with
      | inl e => inl e
      | inr (Some d) => inr (filter (λ ko : Z * Order, d ≤ date (col ko.2)) qs)
      | inr None => inr qs
      end
  | None => inr qs
  end.

(** [qs.filter(<column>__date__lte=d)] guarded by [if raw:] and [if d:]. *)
Definition filter_date_lte (col : Order → Z) (v : option string)
    (qs : list (Z * Order)) : Exception + list (Z * Order) :=
  match truthy v with
  | Some raw =>
      match parse_date raw with
      | inl e => inl e
      | inr (Some d) => inr (filter (λ ko : Z * Order, date (col ko.2) ≤ d) qs)
      | inr None => inr qs
      end
  | None => inr qs
  end.

(** Sequencing of steps that may raise. *)
Definition and_then {A B} (x : Exception + A) (f : A → Exception + B)
    : Exception + B :=
  match x with
  | inl e => inl e
  | inr a => f a
  end.

(** [OrderViewSet.get_queryset] *)
Definition get_queryset (db : DB) (q : QueryParams)
    : Exception + list (Z * Order) :=
  let qs := ordered_orders db in
  let qs := filter_text (λ o, status_value (status o)) (q_status q) qs in
  and_then (filter_date_gte created_at (q_date_from q) qs) (λ qs,
  and_then (filter_date_lte created_at (q_date_to q) qs) (λ qs,
  let qs :=
    filter_text (λ o, change_value (last_change_type o))
                (q_last_change_type q) qs in
  and_then (filter_date_gte last_change_at (q_last_change_from q) qs) (λ qs,
  filter_date_lte last_change_at (q_last_change_to q) qs))).
(** What each guarded filter asks of a row: nothing when the parameter is
    skipped or its text is no date. *)
Definition text_matches (col : Order → string) (v : option string) (o : Order)
    : Prop :=
  ∀ s, truthy v = Some s → col o = s.

Definition on_or_after (col : Order → Z) (v : option string) (o : Order)
    : Prop :=
  ∀ raw d, truthy v = Some raw → parse_date raw = inr (Some d) →
           d ≤ date (col o).

Definition on_or_before (col : Order → Z) (v : option string) (o : Order)
    : Prop :=
  ∀ raw d, truthy v = Some raw → parse_date raw = inr (Some d) →
           date (col o) ≤ d.

(** The rows a listing with parameters [q] asks for. *)
Definition selected (q : QueryParams) (o : Order) : Prop :=
  text_matches (λ o, status_value (status o)) (q_status q) o ∧
  on_or_after created_at (q_date_from q) o ∧
  on_or_before created_at (q_date_to q) o ∧
  text_matches (λ o, change_value (last_change_type o))
               (q_last_change_type q) o ∧
  on_or_after last_change_at (q_last_change_from q) o ∧
  on_or_before last_change_at (q_last_change_to q) o.
End Listing.

(** Stand-ins for the examples: days of ten time units, and a parser that
    knows one date, one well formatted text that names no date, and takes
    everything else as not formatted as a date. *)
Definition example_date (t : Z) : Z := t / 10.

Definition example_parse_date (s : string) : Exception + option Z :=
  if String.eqb s "day-10" then inr (Some 10)
  else if String.eqb s "2024-13-45" then inl ValueError
  else inr None.

(** A request without query parameters. *)
Definition no_params : QueryParams := mkParams None None None None None None.

(** ** The ways a request is served

    One case per path through a handler: the database and the outcome it
    ends with, under the conditions that select the path. *)
Inductive Served (db : DB) (now : Z) : Request → DB * Outcome → Prop :=
  | served_unknown r :
      orders db !! target r = None →
      Served db now r (db, Raise Http404)
  | served_delete k o :
      orders db !! k = Some o →
      Served db now (Delete k) (db, Raise ValueError)
  | served_complete_completed k o :
      orders db !! k = Some o → status o = COMPLETED →
      Served db now (Complete k)
        (db, Return (bad_request (Detail "Order is already completed.")))
  | served_complete_canceled k o :
      orders db !! k = Some o → status o = CANCELED →
      Served db now (Complete k)
        (db, Return (bad_request
                       (Detail "Canceled orders cannot be completed.")))
  | served_complete_applied k o :
      orders db !! k = Some o → status o = PENDING →
      already_applied db (mkInstance k o None) = true →
      Served db now (Complete k)
        (set_orders (insert k (mark COMPLETED now CHANGE_COMPLETED o)) db,
         Return (mkResponse (OrderData (mark COMPLETED now CHANGE_COMPLETED o))
                            HTTP_200_OK))
  | served_complete_reserved k o :
      orders db !! k = Some o → status o = PENDING →
      already_applied db (mkInstance k o None) = false →
      insufficient_items db k = [] →
      Served db now (Complete k)
        (set_orders (insert k (mark COMPLETED now CHANGE_COMPLETED o))
                    (reserve_items now (order_items db k) db),
         Return (mkResponse (OrderData (mark COMPLETED now CHANGE_COMPLETED o))
                            HTTP_200_OK))
  | served_complete_refused k o :
      orders db !! k = Some o → status o = PENDING →
      already_applied db (mkInstance k o None) = false →
      insufficient_items db k ≠ [] →
      Served db now (Complete k)
        (db, Return (bad_request
                       (DetailItems "Insufficient stock for some products."
                                    (insufficient_items db k))))
  | served_add_closed k p qty o :
      orders db !! k = Some o → closed (status o) = true →
      Served db now (AddItem k p qty)
        (db, Return (bad_request
                       (Detail "You can't modify a completed/canceled order.")))
  | served_add_no_product k p qty o :
      orders db !! k = Some o → status o = PENDING →
      products db !! p = None →
      Served db now (AddItem k p qty) (db, Raise DoesNotExist)
  | served_add_refused k p qty o pr :
      orders db !! k = Some o → status o = PENDING →
      products db !! p = Some pr → stock pr < qty →
      Served db now (AddItem k p qty)
        (db, Return (bad_request
                       (DetailAvailable
                          ("Insufficient stock for '" +:+ name pr +:+ "'.")
                          (stock pr))))
  | served_add_merge k p qty o pr i it :
      orders db !! k = Some o → status o = PENDING →
      products db !! p = Some pr → qty ≤ stock pr →
      first_item db k p = Some (i, it) →
      Served db now (AddItem k p qty)
        (mkDB (<[p := mkProduct (name pr) (unit_price pr) (stock pr - qty)]>
                 (products db))
              (<[k := mark PENDING now CHANGE_UPDATE
                           (with_total (total o + qty * price it) o)]>
                 (orders db))
              (<[i := mkOrderItem (order_id it) (product_id it)
                                  (quantity it + qty) (price it)]> (items db))
              (movements db ++ [mkMovement p qty "salida" "venta" now]),
         Return (mkResponse
                   (OrderData (mark PENDING now CHANGE_UPDATE
                                 (with_total (total o + qty * price it) o)))
                   HTTP_200_OK))
  | served_add_create k p qty o pr :
      orders db !! k = Some o → status o = PENDING →
      products db !! p = Some pr → qty ≤ stock pr →
      first_item db k p = None →
      Served db now (AddItem k p qty)
        (mkDB (<[p := mkProduct (name pr) (unit_price pr) (stock pr - qty)]>
                 (products db))
              (<[k := mark PENDING now CHANGE_UPDATE
                           (with_total (total o + qty * unit_price pr) o)]>
                 (orders db))
              (items db ++ [mkOrderItem k p qty (unit_price pr)])
              (movements db ++ [mkMovement p qty "salida" "venta" now]),
         Return (mkResponse
                   (OrderData (mark PENDING now CHANGE_UPDATE
                                 (with_total (total o + qty * unit_price pr) o)))
                   HTTP_200_OK))
  | served_remove_closed k p dec_qty o :
      orders db !! k = Some o → closed (status o) = true →
      Served db now (RemoveItem k p dec_qty)
        (db, Return (bad_request
                       (Detail "You can't modify a completed/canceled order.")))
  | served_remove_no_product k p dec_qty o :
      orders db !! k = Some o → status o = PENDING →
      products db !! p = None →
      Served db now (RemoveItem k p dec_qty) (db, Raise DoesNotExist)
  | served_remove_missing k p dec_qty o pr :
      orders db !! k = Some o → status o = PENDING →
      products db !! p = Some pr → first_item db k p = None →
      Served db now (RemoveItem k p dec_qty)
        (db, Return (bad_request
                       (Detail ("Product '" +:+ name pr
                                +:+ "' is not in this order."))))
  | served_remove_ok k p dec_qty o pr i it :
      orders db !! k = Some o → status o = PENDING →
      products db !! p = Some pr → first_item db k p = Some (i, it) →
      Served db now (RemoveItem k p dec_qty)
        (mkDB (<[p := mkProduct (name pr) (unit_price pr)
                                (stock pr + Z.min dec_qty (quantity it))]>
                 (products db))
              (<[k := mark PENDING now CHANGE_UPDATE
                           (with_total
                              (total o - Z.min dec_qty (quantity it) * price it)
                              o)]> (orders db))
              (if decide (Z.min dec_qty (quantity it) = quantity it)
               then delete i (items db)
               else <[i := mkOrderItem (order_id it) (product_id it)
                             (quantity it - Z.min dec_qty (quantity it))
                             (price it)]> (items db))
              (movements db
               ++ [mkMovement p (Z.min dec_qty (quantity it)) "entrada"
                              "ajuste" now]),
         Return (mkResponse
                   (OrderData
                      (mark PENDING now CHANGE_UPDATE
                         (with_total
                            (total o - Z.min dec_qty (quantity it) * price it)
                            o)))
                   HTTP_200_OK))
  | served_cancel_completed k o :
      orders db !! k = Some o → status o = COMPLETED →
      Served db now (Cancel k)
        (db, Return (bad_request
                       (Detail "Completed orders cannot be canceled.")))
  | served_cancel_canceled k o :
      orders db !! k = Some o → status o = CANCELED →
      Served db now (Cancel k)
        (db, Return (bad_request (Detail "Order is already canceled.")))
  | served_cancel_pending k o :
      orders db !! k = Some o → status o = PENDING →
      Served db now (Cancel k)
        (set_orders (insert k (mark CANCELED now CHANGE_CANCELED o)) db,
         Return (mkResponse (OrderData (mark CANCELED now CHANGE_CANCELED o))
                            HTTP_200_OK)).

(** ** Quantities used in the further properties *)

(** The units of product [p] held by the rows of an item table. *)
Definition held (p : Z) (l : list OrderItem) : Z :=
  foldr Z.add 0 (quantity <$> filter (λ it, product_id it = p) l).

(** The units of product [p] an order asks for, over the rows [complete]
    iterates on. *)
Definition asked (p : Z) (its : list (OrderItem * Product)) : Z :=
  foldr Z.add 0
        ((λ ip : OrderItem * Product, quantity ip.1)
           <$> filter (λ ip : OrderItem * Product, product_id ip.1 = p) its).

(** The pair a row is looked up by in [add_item] and [remove_item]. *)
Definition row_key (it : OrderItem) : Z * Z := (order_id it, product_id it).

(** The quantity of the payload is positive. *)
Definition positive_payload (r : Request) : Prop :=
  match r with
  | AddItem _ _ qty | RemoveItem _ _ qty => 0 < qty
  | _ => True
  end.

(** The state the handlers keep: no negative stock, positive quantities,
    one row per (order, product), totals equal to the sum of the lines. *)
Definition well_formed (db : DB) : Prop :=
  (∀ p pr, products db !! p = Some pr → 0 ≤ stock pr) ∧
  Forall (λ it, 0 < quantity it) (items db) ∧
  NoDup (row_key <$> items db) ∧
  total_consistent db.

(** * Properties *)

(** ** What [save] writes *)

Lemma save_status_fields db inst row :
  orders db !! pk inst = Some row →
  save db inst ["status"; "last_change_at"; "last_change_type"] =
  inr (set_orders
         (insert (pk inst)
            (mkOrder (customer_name row) (total row) (status (fields inst))
                     (created_at row) (last_change_at (fields inst))
                     (last_change_type (fields inst)))) db).
Proof. intros Hrow. unfold save. rewrite Hrow. reflexivity. Qed.

Lemma save_change_fields db inst row :
  orders db !! pk inst = Some row →
  save db inst ["last_change_at"; "last_change_type"] =
  inr (set_orders
         (insert (pk inst)
            (mkOrder (customer_name row) (total row) (status row)
                     (created_at row) (last_change_at (fields inst))
                     (last_change_type (fields inst)))) db).
Proof. intros Hrow. unfold save. rewrite Hrow. reflexivity. Qed.

(** [deleted_at] is not a field of [Order]: the check of the names fails
    whatever the database and the instance are. *)
Lemma save_deleted_at db inst :
  save db inst ["deleted_at"; "status"; "last_change_at"; "last_change_type"]
  = inl ValueError.
Proof. reflexivity. Qed.

Lemma closed_true s : closed s = true ↔ s = COMPLETED ∨ s = CANCELED.
Proof. destruct s; vm_compute; intuition congruence. Qed.

Lemma closed_false s : closed s = false ↔ s = PENDING.
Proof. destruct s; vm_compute; intuition congruence. Qed.

(** ** Frame properties of the ORM calls *)

Lemma reserve_items_orders now its db :
  orders (reserve_items now its db) = orders db.
Proof.
  revert db. induction its as [|ip its IH]; intros db; [done|].
  unfold reserve_items in *. simpl. by rewrite IH.
Qed.

Lemma reserve_items_items now its db :
  items (reserve_items now its db) = items db.
Proof.
  revert db. induction its as [|ip its IH]; intros db; [done|].
  unfold reserve_items in *. simpl. by rewrite IH.
Qed.

(** ** The handlers in closed form *)

Lemma complete_applied db k now o :
  orders db !! k = Some o → status o = PENDING →
  already_applied db (mkInstance k o None) = true →
  complete db k now =
  (set_orders (insert k (mark COMPLETED now CHANGE_COMPLETED o)) db,
   Return (mkResponse (OrderData (mark COMPLETED now CHANGE_COMPLETED o))
                      HTTP_200_OK)).
Proof.
  intros Ho Hst Happ. unfold complete, get_object. rewrite Ho. simpl.
  rewrite Hst. simpl. rewrite Happ. unfold save_flow.
  erewrite save_status_fields by exact Ho. reflexivity.
Qed.

Lemma complete_reserved db k now o :
  orders db !! k = Some o → status o = PENDING →
  already_applied db (mkInstance k o None) = false →
  insufficient_items db k = [] →
  complete db k now =
  (set_orders (insert k (mark COMPLETED now CHANGE_COMPLETED o))
              (reserve_items now (order_items db k) db),
   Return (mkResponse (OrderData (mark COMPLETED now CHANGE_COMPLETED o))
                      HTTP_200_OK)).
Proof.
  intros Ho Hst Happ Hins. unfold complete, get_object. rewrite Ho. simpl.
  rewrite Hst. simpl. rewrite Happ, Hins. unfold save_flow.
  erewrite save_status_fields
    by (simpl; rewrite reserve_items_orders; exact Ho).
  reflexivity.
Qed.

Lemma complete_refused db k now o :
  orders db !! k = Some o → status o = PENDING →
  already_applied db (mkInstance k o None) = false →
  insufficient_items db k ≠ [] →
  complete db k now =
  (db, Return (bad_request
                 (DetailItems "Insufficient stock for some products."
                              (insufficient_items db k)))).
Proof.
  intros Ho Hst Happ Hins. unfold complete, get_object. rewrite Ho. simpl.
  rewrite Hst. simpl. rewrite Happ.
  destruct (insufficient_items db k); [done|reflexivity].
Qed.

Lemma cancel_pending db k now o :
  orders db !! k = Some o → status o = PENDING →
  cancel db k now =
  (set_orders (insert k (mark CANCELED now CHANGE_CANCELED o)) db,
   Return (mkResponse (OrderData (mark CANCELED now CHANGE_CANCELED o))
                      HTTP_200_OK)).
Proof.
  intros Ho Hst. unfold cancel, get_object. rewrite Ho. simpl.
  rewrite Hst. simpl.
  erewrite save_status_fields by exact Ho. reflexivity.
Qed.

Lemma destroy_raises db k now :
  destroy db k now =
  (db, Raise (match orders db !! k with
              | Some _ => ValueError
              | None => Http404
              end)).
Proof.
  unfold destroy, get_object. destruct (orders db !! k); [|done].
  by rewrite save_deleted_at.
Qed.

Lemma gmap_alter_Some {A} (f : A → A) (m : gmap Z A) i x :
  m !! i = Some x → alter f i m = <[i := f x]> m.
Proof.
  intros Hx. apply map_eq. intros j. rewrite lookup_alter, lookup_insert.
  case_decide; subst; by rewrite ?Hx.
Qed.

Lemma list_alter_Some {A} (f : A → A) (l : list A) i x :
  l !! i = Some x → alter f i l = <[i := f x]> l.
Proof.
  intros Hx. rewrite list_insert_alter. apply list_alter_ext; [|done].
  intros y Hy. congruence.
Qed.

Lemma first_item_lookup db k p i it :
  first_item db k p = Some (i, it) →
  items db !! i = Some it ∧ order_id it = k ∧ product_id it = p.
Proof.
  unfold first_item. intros (? & [? ?] & _)%list_find_Some. done.
Qed.

Lemma add_item_merge db k p qty now o pr i it :
  orders db !! k = Some o → closed (status o) = false →
  products db !! p = Some pr → qty ≤ stock pr →
  first_item db k p = Some (i, it) →
  let row := mark (status o) now CHANGE_UPDATE
                  (with_total (total o + qty * price it) o) in
  add_item db k p qty now =
  (mkDB (<[p := mkProduct (name pr) (unit_price pr) (stock pr - qty)]>
           (products db))
        (<[k := row]> (orders db))
        (<[i := mkOrderItem (order_id it) (product_id it) (quantity it + qty)
                            (price it)]> (items db))
        (movements db ++ [mkMovement p qty "salida" "venta" now]),
   Return (mkResponse (OrderData row) HTTP_200_OK)).
Proof.
  intros Ho Hcl Hp Hq Hfirst row.
  destruct (first_item_lookup _ _ _ _ _ Hfirst) as (Hi & _ & _).
  unfold add_item, get_object. rewrite Ho. cbn [fields]. rewrite Hcl.
  rewrite Hp. destruct (decide (stock pr < qty)) as [?|_]; [lia|].
  rewrite Hfirst. unfold save_flow.
  erewrite save_change_fields
    by (cbn; rewrite lookup_alter_eq, Ho; reflexivity).
  unfold atomic, refreshed, refresh_from_db. cbn.
  rewrite lookup_insert_eq. unfold_db. rewrite insert_alter_eq.
  rewrite (gmap_alter_Some _ _ _ _ Hp), (list_alter_Some _ _ _ _ Hi).
  reflexivity.
Qed.

Lemma add_item_create db k p qty now o pr :
  orders db !! k = Some o → closed (status o) = false →
  products db !! p = Some pr → qty ≤ stock pr →
  first_item db k p = None →
  let row := mark (status o) now CHANGE_UPDATE
                  (with_total (total o + qty * unit_price pr) o) in
  add_item db k p qty now =
  (mkDB (<[p := mkProduct (name pr) (unit_price pr) (stock pr - qty)]>
           (products db))
        (<[k := row]> (orders db))
        (items db ++ [mkOrderItem k p qty (unit_price pr)])
        (movements db ++ [mkMovement p qty "salida" "venta" now]),
   Return (mkResponse (OrderData row) HTTP_200_OK)).
Proof.
  intros Ho Hcl Hp Hq Hfirst row.
  unfold add_item, get_object. rewrite Ho. cbn [fields]. rewrite Hcl.
  rewrite Hp. destruct (decide (stock pr < qty)) as [?|_]; [lia|].
  rewrite Hfirst. unfold save_flow.
  erewrite save_change_fields
    by (cbn; rewrite lookup_alter_eq, Ho; reflexivity).
  unfold atomic, refreshed, refresh_from_db. cbn.
  rewrite lookup_insert_eq. unfold_db. rewrite insert_alter_eq.
  rewrite (gmap_alter_Some _ _ _ _ Hp).
  reflexivity.
Qed.

Lemma add_item_refused db k p qty now o pr :
  orders db !! k = Some o → closed (status o) = false →
  products db !! p = Some pr → stock pr < qty →
  add_item db k p qty now =
  (db, Return (bad_request
                 (DetailAvailable
                    ("Insufficient stock for '" +:+ name pr +:+ "'.")
                    (stock pr)))).
Proof.
  intros Ho Hcl Hp Hq.
  unfold add_item, get_object. rewrite Ho. cbn [fields]. rewrite Hcl.
  rewrite Hp. destruct (decide (stock pr < qty)) as [_|?]; [|lia].
  reflexivity.
Qed.

Lemma remove_item_ok db k p dec_qty now o pr i it :
  orders db !! k = Some o → closed (status o) = false →
  products db !! p = Some pr →
  first_item db k p = Some (i, it) →
  let remove_units := Z.min dec_qty (quantity it) in
  let row := mark (status o) now CHANGE_UPDATE
                  (with_total (total o - remove_units * price it) o) in
  remove_item db k p dec_qty now =
  (mkDB (<[p := mkProduct (name pr) (unit_price pr) (stock pr + remove_units)]>
           (products db))
        (<[k := row]> (orders db))
        (if decide (remove_units = quantity it)
         then delete i (items db)
         else <[i := mkOrderItem (order_id it) (product_id it)
                                 (quantity it - remove_units) (price it)]>
                (items db))
        (movements db ++ [mkMovement p remove_units "entrada" "ajuste" now]),
   Return (mkResponse (OrderData row) HTTP_200_OK)).
Proof.
  intros Ho Hcl Hp Hfirst remove_units row.
  destruct (first_item_lookup _ _ _ _ _ Hfirst) as (Hi & _ & _).
  unfold add_item, remove_item, get_object. rewrite Ho. cbn [fields].
  rewrite Hcl, Hp, Hfirst. fold remove_units. unfold save_flow.
  destruct (decide (remove_units = quantity it)) as [Heq|Hne].
  - erewrite save_change_fields
      by (cbn; rewrite lookup_alter_eq, Ho; reflexivity).
    unfold atomic, refreshed, refresh_from_db. cbn.
    rewrite lookup_insert_eq. unfold_db. rewrite insert_alter_eq.
    rewrite (gmap_alter_Some _ _ _ _ Hp).
    subst row. rewrite <- Heq. reflexivity.
  - erewrite save_change_fields
      by (cbn; rewrite lookup_alter_eq, Ho; reflexivity).
    unfold atomic, refreshed, refresh_from_db. cbn.
    rewrite lookup_insert_eq. unfold_db. rewrite insert_alter_eq.
    rewrite (gmap_alter_Some _ _ _ _ Hp), (list_alter_Some _ _ _ _ Hi).
    reflexivity.
Qed.

Lemma remove_item_missing db k p dec_qty now o pr :
  orders db !! k = Some o → closed (status o) = false →
  products db !! p = Some pr →
  first_item db k p = None →
  remove_item db k p dec_qty now =
  (db, Return (bad_request
                 (Detail ("Product '" +:+ name pr
                          +:+ "' is not in this order.")))).
Proof.
  intros Ho Hcl Hp Hfirst.
  unfold remove_item, get_object. rewrite Ho. cbn [fields].
  by rewrite Hcl, Hp, Hfirst.
Qed.

Lemma add_item_closed db k p qty now o :
  orders db !! k = Some o → closed (status o) = true →
  add_item db k p qty now =
  (db, Return (bad_request
                 (Detail "You can't modify a completed/canceled order."))).
Proof.
  intros Ho Hcl. unfold add_item, get_object. rewrite Ho. cbn [fields].
  by rewrite Hcl.
Qed.

Lemma remove_item_closed db k p dec_qty now o :
  orders db !! k = Some o → closed (status o) = true →
  remove_item db k p dec_qty now =
  (db, Return (bad_request
                 (Detail "You can't modify a completed/canceled order."))).
Proof.
  intros Ho Hcl. unfold remove_item, get_object. rewrite Ho. cbn [fields].
  by rewrite Hcl.
Qed.

Lemma complete_closed db k now o :
  orders db !! k = Some o → closed (status o) = true →
  (complete db k now).1 = db.
Proof.
  intros Ho Hcl. unfold complete, get_object. rewrite Ho. cbn [fields].
  destruct (proj1 (closed_true _) Hcl) as [Hs|Hs]; rewrite Hs; reflexivity.
Qed.

Lemma cancel_closed db k now o :
  orders db !! k = Some o → closed (status o) = true →
  (cancel db k now).1 = db.
Proof.
  intros Ho Hcl. unfold cancel, get_object. rewrite Ho. cbn [fields].
  destruct (proj1 (closed_true _) Hcl) as [Hs|Hs]; rewrite Hs; reflexivity.
Qed.

Lemma handler_missing db now r :
  orders db !! target r = None → (handle db now r).1 = db.
Proof.
  intros Hk.
  destruct r; cbn in *;
    unfold complete, add_item, remove_item, cancel, destroy, get_object;
    by rewrite Hk.
Qed.

(** ** The order table after a request

    A request leaves the order table as it is, or rewrites the row of the
    pending order it is addressed to, keeping its [created_at]. *)
Lemma handle_orders db now r :
  orders (handle db now r).1 = orders db ∨
  ∃ o row, orders db !! target r = Some o ∧ status o = PENDING ∧
           created_at row = created_at o ∧
           orders (handle db now r).1 = <[target r := row]> (orders db).
Proof.
  destruct (orders db !! target r) as [o|] eqn:Ho;
    [|left; by rewrite handler_missing].
  destruct (closed (status o)) eqn:Hcl.
  { left. destruct r; cbn in *.
    - by erewrite complete_closed.
    - by erewrite add_item_closed.
    - by erewrite remove_item_closed.
    - by erewrite cancel_closed.
    - by rewrite destroy_raises. }
  pose proof Hcl as Hst%closed_false.
  destruct r as [k|k p qty|k p dec_qty|k|k]; cbn [handle target] in *.
  - destruct (already_applied db (mkInstance k o None)) eqn:Happ.
    + erewrite complete_applied by done. pending_row o.
    + destruct (insufficient_items db k) as [|s l] eqn:Hins.
      * erewrite complete_reserved by done.
        cbn. rewrite reserve_items_orders. pending_row o.
      * left. erewrite complete_refused by (done || by rewrite Hins).
        done.
  - destruct (products db !! p) as [pr|] eqn:Hp.
    + destruct (decide (stock pr < qty)).
      { left. by erewrite add_item_refused. }
      destruct (first_item db k p) as [[i it]|] eqn:Hfirst.
      * erewrite add_item_merge by (done || lia). pending_row o.
      * erewrite add_item_create by (done || lia). pending_row o.
    + left. unfold add_item, get_object. rewrite Ho. cbn [fields].
      by rewrite Hcl, Hp.
  - destruct (products db !! p) as [pr|] eqn:Hp.
    + destruct (first_item db k p) as [[i it]|] eqn:Hfirst.
      * erewrite remove_item_ok by done. pending_row o.
      * left. by erewrite remove_item_missing.
    + left. unfold remove_item, get_object. rewrite Ho. cbn [fields].
      by rewrite Hcl, Hp.
  - erewrite cancel_pending by done. pending_row o.
  - left. by rewrite destroy_raises.
Qed.

(** ** C3: completing a closed order *)

(** C3. [complete] on an order whose status is [COMPLETED] answers 400
    "Order is already completed." (the AlreadyCompleted failure), on one
    whose status is [CANCELED] it answers 400 "Canceled orders cannot be
    completed." (the InvalidTransition failure); in both cases the database
    returned is the one received, so the stock of every product is what it
    was. *)
Theorem complete_closed_order db k now o :
  orders db !! k = Some o →
  (status o = COMPLETED →
   complete db k now =
   (db, Return (bad_request (Detail "Order is already completed."))) ∧
   ∀ p, stock <$> products (complete db k now).1 !! p
        = stock <$> products db !! p) ∧
  (status o = CANCELED →
   complete db k now =
   (db, Return (bad_request (Detail "Canceled orders cannot be completed.")))).
Proof.
  intros Ho. unfold complete, get_object. rewrite Ho. cbn [fields].
  split; intros ->; [split|]; reflexivity.
Qed.

Lemma complete_closed_order_witness :
  complete db0 3 200 =
  (db0, Return (bad_request (Detail "Order is already completed."))) ∧
  complete db0 4 200 =
  (db0, Return (bad_request (Detail "Canceled orders cannot be completed."))).
Proof.
  split.
  - apply (complete_closed_order db0 3 200
             (mkOrder "eva" 0 COMPLETED 100 110 CHANGE_COMPLETED));
      reflexivity.
  - apply (complete_closed_order db0 4 200
             (mkOrder "leo" 0 CANCELED 100 110 CHANGE_CANCELED));
      reflexivity.
Defined.

(** ** C7: closed orders stay as they are *)

(** C7. Whatever request is served ([Complete], [AddItem], [RemoveItem],
    [Cancel] or [Delete], addressed to this order or to another one), an
    order whose status is [COMPLETED] or [CANCELED] has the same status
    afterwards; and the instance [destroy] prepares for saving keeps such a
    status too. *)
Theorem closed_status_is_final db now r k o :
  orders db !! k = Some o →
  status o = COMPLETED ∨ status o = CANCELED →
  status <$> orders (handle db now r).1 !! k = Some (status o) ∧
  status (fields (destroy_assign now (mkInstance k o None))) = status o.
Proof.
  intros Ho Hst. split.
  - destruct (handle_orders db now r) as [-> | (o' & row & Ho' & Hp & _ & ->)].
    + by rewrite Ho.
    + destruct (decide (target r = k)) as [Heq|Hne].
      * rewrite Heq, Ho in Ho'. injection Ho' as <-.
        destruct Hst as [Hs|Hs]; rewrite Hp in Hs; discriminate.
      * by rewrite lookup_insert_ne, Ho.
  - destruct Hst as [Hst|Hst]; unfold destroy_assign; cbn; by rewrite Hst.
Qed.

Lemma closed_status_is_final_witness :
  status <$> orders (handle db0 200 (Cancel 3)).1 !! 3 = Some COMPLETED.
Proof.
  apply (closed_status_is_final db0 200 (Cancel 3) 3
           (mkOrder "eva" 0 COMPLETED 100 110 CHANGE_COMPLETED));
    [reflexivity | left; reflexivity].
Defined.

(** ** C8: what [cancel] touches *)

(** C8. A successful [cancel] returns the database it received with one
    change: in the row of the order, [status] is [CANCELED], [last_change_at]
    is the time of the call and [last_change_type] is [CHANGE_CANCELED]. The
    product table (so every stock), the movement log and the item table are
    the ones received, whatever items the order holds. *)
Theorem cancel_touches_only_the_order db k now o :
  orders db !! k = Some o → status o = PENDING →
  cancel db k now =
  (mkDB (products db)
        (<[k := mkOrder (customer_name o) (total o) CANCELED (created_at o)
                        now CHANGE_CANCELED]> (orders db))
        (items db) (movements db),
   Return (mkResponse
             (OrderData (mkOrder (customer_name o) (total o) CANCELED
                                 (created_at o) now CHANGE_CANCELED))
             HTTP_200_OK)).
Proof. intros Ho Hst. by erewrite cancel_pending. Qed.

Lemma cancel_touches_only_the_order_witness :
  products (cancel db0 1 200).1 = products db0 ∧
  items (cancel db0 1 200).1 = items db0 ∧
  movements (cancel db0 1 200).1 = movements db0 ∧
  orders (cancel db0 1 200).1 !! 1 =
  Some (mkOrder "ana" 5000 CANCELED 100 200 CHANGE_CANCELED).
Proof.
  rewrite (cancel_touches_only_the_order db0 1 200
             (mkOrder "ana" 5000 PENDING 100 105 CHANGE_UPDATE))
    by reflexivity.
  repeat split.
Defined.

(** ** C9: [destroy] *)

(** C9. [destroy] never answers: for an order that exists, the [save] call
    names [deleted_at], which [class Order] does not declare, so it raises
    [ValueError] before anything is written; the database is the one
    received. (For an unknown order [get_object] raises 404.) *)
Theorem destroy_raises_ValueError db k now :
  destroy db k now =
  (db, Raise (match orders db !! k with
              | Some _ => ValueError
              | None => Http404
              end)).
Proof. apply destroy_raises. Qed.

(** The assignments [destroy] makes on the instance are those of a soft
    delete; they are lost with the failed [save]. *)
Lemma destroy_assign_fields now k o :
  destroy_assign now (mkInstance k o None) =
  mkInstance k
    (mkOrder (customer_name o) (total o)
             (if closed (status o) then status o else CANCELED)
             (created_at o) now CHANGE_DELETE)
    (Some now).
Proof. destruct o as [? ? [] ? ? ?]; reflexivity. Qed.

Example destroy_pending_order :
  destroy db0 2 200 = (db0, Raise ValueError).
Proof. reflexivity. Qed.

(** ** C2: [complete] and insufficient stock *)

Lemma elem_of_order_items db k it pr :
  (it, pr) ∈ order_items db k ↔
  it ∈ items db ∧ order_id it = k ∧ products db !! product_id it = Some pr.
Proof.
  unfold order_items. rewrite list_elem_of_omap. split.
  - intros (it' & Hin & Heq). case_decide; [|done].
    destruct (products db !! product_id it') eqn:Hp; [|done].
    cbn in Heq. injection Heq as -> ->. done.
  - intros (Hin & Hk & Hp). exists it. split; [done|].
    case_decide; [|done]. by rewrite Hp.
Qed.

Lemma already_applied_false db k o :
  already_applied db (mkInstance k o None) = false ↔
  ∃ ip, ip ∈ order_items db k ∧
        exists_mv db (product_id ip.1) (created_at o) = false.
Proof.
  unfold already_applied. cbn [pk fields].
  induction (order_items db k) as [|ip l IH]; cbn.
  - split; [done|]. intros (ip & Hin & _). by apply elem_of_nil in Hin.
  - rewrite andb_false_iff, IH. split.
    + intros [Hmv | (ip' & Hin & Hmv)].
      * exists ip. split; [left|done].
      * exists ip'. split; [by right|done].
    + intros (ip' & Hin & Hmv). apply elem_of_cons in Hin as [-> | Hin].
      * by left.
      * right. by exists ip'.
Qed.

Lemma already_applied_true db k o :
  already_applied db (mkInstance k o None) = true ↔
  ∀ ip, ip ∈ order_items db k →
        exists_mv db (product_id ip.1) (created_at o) = true.
Proof.
  split.
  - intros Happ ip Hin.
    destruct (exists_mv db (product_id ip.1) (created_at o)) eqn:Hmv; [done|].
    assert (already_applied db (mkInstance k o None) = false) as Hf
      by (apply already_applied_false; eauto).
    congruence.
  - intros Hall.
    destruct (already_applied db (mkInstance k o None)) eqn:Happ; [done|].
    apply already_applied_false in Happ as (ip & Hin & Hmv).
    rewrite (Hall ip Hin) in Hmv. done.
Qed.

Lemma elem_of_insufficient_items db k sf :
  sf ∈ insufficient_items db k ↔
  ∃ it pr, (it, pr) ∈ order_items db k ∧ stock pr < quantity it ∧
           sf = mkShortfall (product_id it) (name pr) (quantity it) (stock pr).
Proof.
  unfold insufficient_items. rewrite list_elem_of_omap. split.
  - intros ([it pr] & Hin & Heq). cbn in Heq. case_decide; [|done].
    injection Heq as <-. by exists it, pr.
  - intros (it & pr & Hin & Hlt & ->). exists (it, pr). split; [done|].
    cbn. by case_decide.
Qed.

(** C2, as stated, fails: order 1 of [db0] is pending and asks for 5 units
    of a product of which 3 are in stock, yet [complete] answers 200 and
    marks the order completed, because the product has a sale outflow
    stamped after the creation of the order. *)
Lemma complete_ignores_shortage_when_applied :
  orders db0 !! 1 = Some (mkOrder "ana" 5000 PENDING 100 105 CHANGE_UPDATE) ∧
  order_items db0 1 = [(mkOrderItem 1 1 5 1000, mkProduct "pen" 1000 3)] ∧
  (complete db0 1 200).2 =
  Return (mkResponse
            (OrderData (mkOrder "ana" 5000 COMPLETED 100 200 CHANGE_COMPLETED))
            HTTP_200_OK) ∧
  orders (complete db0 1 200).1 !! 1 =
  Some (mkOrder "ana" 5000 COMPLETED 100 200 CHANGE_COMPLETED).
Proof. vm_compute. repeat split. Qed.

(** C2, amended. For a pending order of which some item has no sale outflow
    of its product stamped at or after the order's creation (so that the
    already-applied path is not taken), and of which some item asks for more
    than its product's stock: [complete] answers 400 with the list
    [insufficient_items], the database returned is the one received (no
    stock, no order field changed), and the list holds exactly one entry per
    insufficient item, with its requested quantity and available stock. *)
Theorem complete_insufficient_stock db k now o :
  orders db !! k = Some o → status o = PENDING →
  (∃ ip, ip ∈ order_items db k ∧
         exists_mv db (product_id ip.1) (created_at o) = false) →
  (∃ ip, ip ∈ order_items db k ∧ stock ip.2 < quantity ip.1) →
  complete db k now =
  (db, Return (bad_request
                 (DetailItems "Insufficient stock for some products."
                              (insufficient_items db k)))) ∧
  ∀ sf, sf ∈ insufficient_items db k ↔
        ∃ it pr, (it, pr) ∈ order_items db k ∧ stock pr < quantity it ∧
                 sf = mkShortfall (product_id it) (name pr) (quantity it)
                                  (stock pr).
Proof.
  intros Ho Hst Hmv ([it pr] & Hin & Hlt). split.
  - apply complete_refused with o; [done..| |].
    + by apply already_applied_false.
    + intros Hnil.
      assert (mkShortfall (product_id it) (name pr) (quantity it) (stock pr)
              ∈ insufficient_items db k) as Hsf
        by (apply elem_of_insufficient_items; eauto).
      rewrite Hnil in Hsf. by apply elem_of_nil in Hsf.
  - apply elem_of_insufficient_items.
Qed.

Lemma complete_insufficient_stock_witness :
  complete db_unsold 1 200 =
  (db_unsold,
   Return (bad_request
             (DetailItems "Insufficient stock for some products."
                          [mkShortfall 1 "pen" 5 3]))).
Proof.
  apply (complete_insufficient_stock db_unsold 1 200
           (mkOrder "ana" 5000 PENDING 100 105 CHANGE_UPDATE)).
  - reflexivity.
  - reflexivity.
  - exists (mkOrderItem 1 1 5 1000, mkProduct "pen" 1000 3).
    split; [vm_compute; left | reflexivity].
  - exists (mkOrderItem 1 1 5 1000, mkProduct "pen" 1000 3).
    split; [vm_compute; left | reflexivity].
Defined.

(** ** C4: [remove_item] removes [min(q, h)] units *)

(** C4. For a pending order whose first row for the product holds [h] units
    and a request to remove [q > 0] units, [remove_item] removes
    [m = min q h]: the row is deleted when [m = h] and otherwise keeps
    [h - m] units; the stock of the product grows by [m]; the total of the
    order shrinks by [m] times the price stored in the row. *)
Theorem remove_item_removes_min db k p q now o pr i it :
  orders db !! k = Some o → status o = PENDING →
  products db !! p = Some pr →
  first_item db k p = Some (i, it) →
  0 < q →
  let h := quantity it in
  let m := Z.min q h in
  let db' := (remove_item db k p q now).1 in
  (m = h → items db' = delete i (items db)) ∧
  (m ≠ h →
   items db' = <[i := mkOrderItem (order_id it) (product_id it) (h - m)
                                  (price it)]> (items db)) ∧
  stock <$> products db' !! p = Some (stock pr + m) ∧
  total <$> orders db' !! k = Some (total o - m * price it).
Proof.
  intros Ho Hst%closed_false Hp Hfirst _ h m db'. subst db'.
  erewrite remove_item_ok by done. cbn [fst products orders items].
  fold h. fold m. rewrite !lookup_insert_eq.
  destruct (decide (m = h)); repeat split; done.
Qed.

Lemma remove_item_removes_min_witness :
  items (remove_item db0 2 2 5 200).1 = [mkOrderItem 1 1 5 1000] ∧
  stock <$> products (remove_item db0 2 2 5 200).1 !! 2 = Some 9 ∧
  total <$> orders (remove_item db0 2 2 5 200).1 !! 2 = Some 0.
Proof.
  pose proof (remove_item_removes_min db0 2 2 5 200
                (mkOrder "bob" 500 PENDING 100 100 CHANGE_CREATED)
                (mkProduct "ink" 250 7) 1%nat (mkOrderItem 2 2 2 250)
                eq_refl eq_refl eq_refl eq_refl eq_refl) as (Hdel & _ & Hs & Ht).
  split; [exact (Hdel eq_refl) | split; [exact Hs | exact Ht]].
Defined.

(** ** C6: [add_item] and the price it uses *)

(** C6. When the order already has a row for the product, [add_item] adds
    the requested quantity to that row and leaves its price as it is, and
    the total grows by the quantity times that stored price (the product's
    current [unit_price] plays no part); when it has none, a row is appended
    whose price is the product's current price, and the total grows by the
    quantity times that price. *)
Theorem add_item_uses_snapshot_price db k p qty now o pr :
  orders db !! k = Some o → status o = PENDING →
  products db !! p = Some pr → qty ≤ stock pr →
  let db' := (add_item db k p qty now).1 in
  match first_item db k p with
  | Some (i, it) =>
      items db' = <[i := mkOrderItem (order_id it) (product_id it)
                                     (quantity it + qty) (price it)]> (items db)
      ∧ total <$> orders db' !! k = Some (total o + qty * price it)
  | None =>
      items db' = items db ++ [mkOrderItem k p qty (unit_price pr)]
      ∧ total <$> orders db' !! k = Some (total o + qty * unit_price pr)
  end.
Proof.
  intros Ho Hst%closed_false Hp Hq db'. subst db'.
  destruct (first_item db k p) as [[i it]|] eqn:Hfirst.
  - erewrite add_item_merge by done. cbn [fst orders items].
    by rewrite lookup_insert_eq.
  - erewrite add_item_create by done. cbn [fst orders items].
    by rewrite lookup_insert_eq.
Qed.

Lemma add_item_uses_snapshot_price_witness :
  items (add_item db_repriced 2 2 3 200).1 =
  [mkOrderItem 1 1 5 1000; mkOrderItem 2 2 5 250] ∧
  total <$> orders (add_item db_repriced 2 2 3 200).1 !! 2 = Some 1250.
Proof.
  pose proof (add_item_uses_snapshot_price db_repriced 2 2 3 200
                (mkOrder "bob" 500 PENDING 100 100 CHANGE_CREATED)
                (mkProduct "ink" 300 7) eq_refl eq_refl eq_refl
                ltac:(cbn; lia)) as H.
  vm_compute in H. vm_compute. exact H.
Defined.

(** ** C5: [add_item] then [remove_item] *)

Lemma first_item_after_merge db k p i it it' l :
  first_item db k p = Some (i, it) →
  order_id it' = k → product_id it' = p →
  l = <[i := it']> (items db) →
  list_find (λ it, order_id it = k ∧ product_id it = p) l = Some (i, it').
Proof.
  unfold first_item. intros (Hi & _ & Hleast)%list_find_Some Hk Hp ->.
  apply list_find_insert_Some. right. left.
  split_and!; [done|done|by eapply lookup_lt_Some|done|done|].
  intros j z Hz Hlt. by eapply Hleast.
Qed.

Lemma first_item_after_create db k p it' l :
  first_item db k p = None →
  order_id it' = k → product_id it' = p →
  l = items db ++ [it'] →
  list_find (λ it, order_id it = k ∧ product_id it = p) l
  = Some (length (items db), it').
Proof.
  unfold first_item. intros Hnone Hk Hp ->.
  rewrite list_find_app_r by done. cbn.
  case_decide as Hd; [done|]. destruct Hd. done.
Qed.

(** C5. On a pending order, for a product with at least [q > 0] units in
    stock, [add_item] of [q] units followed by [remove_item] of [q] units
    leaves the product's stock and the order's total at the values they had
    before [add_item]. (The quantity already held for the product, if any,
    is not negative: the column is a [PositiveIntegerField].) *)
Theorem add_then_remove_round_trip db k p q t1 t2 o pr :
  orders db !! k = Some o → status o = PENDING →
  products db !! p = Some pr →
  0 < q → q ≤ stock pr →
  (∀ i it, first_item db k p = Some (i, it) → 0 ≤ quantity it) →
  let db1 := (add_item db k p q t1).1 in
  let db2 := (remove_item db1 k p q t2).1 in
  stock <$> products db2 !! p = Some (stock pr) ∧
  total <$> orders db2 !! k = Some (total o).
Proof.
  intros Ho Hst%closed_false Hp Hq Hstock Hheld db1 db2. subst db1 db2.
  destruct (first_item db k p) as [[i it]|] eqn:Hfirst.
  - pose proof (Hheld i it eq_refl) as Hnonneg.
    destruct (first_item_lookup _ _ _ _ _ Hfirst) as (_ & Hk & Hpid).
    erewrite add_item_merge by done. cbn [fst].
    match goal with |- context [remove_item ?d _ _ _ _] => set (db1 := d) end.
    assert (first_item db1 k p
            = Some (i, mkOrderItem (order_id it) (product_id it)
                                   (quantity it + q) (price it))) as Hfirst1
      by (by eapply first_item_after_merge).
    rewrite (remove_item_ok db1 k p q t2 _ _ i _
               (lookup_insert_eq _ _ _) Hst (lookup_insert_eq _ _ _) Hfirst1).
    cbn [fst products orders quantity price total with_total mark stock].
    rewrite !lookup_insert_eq. cbn. rewrite Z.min_l by lia.
    split; f_equal; lia.
  - erewrite add_item_create by done. cbn [fst].
    match goal with |- context [remove_item ?d _ _ _ _] => set (db1 := d) end.
    assert (first_item db1 k p
            = Some (length (items db), mkOrderItem k p q (unit_price pr)))
      as Hfirst1 by (by eapply first_item_after_create).
    rewrite (remove_item_ok db1 k p q t2 _ _ _ _
               (lookup_insert_eq _ _ _) Hst (lookup_insert_eq _ _ _) Hfirst1).
    cbn [fst products orders quantity price total with_total mark stock].
    rewrite !lookup_insert_eq. cbn. rewrite Z.min_l by lia.
    split; f_equal; lia.
Qed.

Lemma add_then_remove_round_trip_witness :
  stock <$> products (remove_item (add_item db0 2 2 3 200).1 2 2 3 201).1 !! 2
  = Some 7 ∧
  total <$> orders (remove_item (add_item db0 2 2 3 200).1 2 2 3 201).1 !! 2
  = Some 500.
Proof.
  apply (add_then_remove_round_trip db0 2 2 3 200 201
           (mkOrder "bob" 500 PENDING 100 100 CHANGE_CREATED)
           (mkProduct "ink" 250 7)); try reflexivity; try (cbn; lia).
  intros i it Hfirst. vm_compute in Hfirst. injection Hfirst as _ <-.
  vm_compute. discriminate.
Defined.

(** ** C1: the total is the sum of the line totals *)

Section OrderSum.
Variable k : Z.

Lemma order_sum_cons it l :
  order_sum k (it :: l) =
  (if decide (order_id it = k) then OrderItem_total it else 0)
  + order_sum k l.
Proof.
  unfold order_sum. rewrite filter_cons. by case_decide.
Qed.

Lemma order_sum_app l it :
  order_sum k (l ++ [it]) =
  order_sum k l + (if decide (order_id it = k) then OrderItem_total it else 0).
Proof.
  induction l as [|x l IH].
  - rewrite app_nil_l, order_sum_cons. unfold order_sum. cbn. lia.
  - rewrite <- app_comm_cons, !order_sum_cons, IH. lia.
Qed.

Lemma order_sum_insert l i it it' :
  l !! i = Some it → order_id it' = order_id it →
  order_sum k (<[i := it']> l) =
  order_sum k l
  + (if decide (order_id it = k)
     then OrderItem_total it' - OrderItem_total it else 0).
Proof.
  revert i. induction l as [|x l IH]; intros [|i] Hi Hid; try done.
  - cbn in Hi. injection Hi as ->.
    change (<[0%nat := it']> (it :: l)) with (it' :: l).
    rewrite !order_sum_cons, Hid. case_decide; lia.
  - cbn in Hi. change (<[S i := it']> (x :: l)) with (x :: <[i := it']> l).
    rewrite !order_sum_cons, (IH i) by done. lia.
Qed.

Lemma order_sum_delete l i it :
  l !! i = Some it →
  order_sum k (delete i l) =
  order_sum k l
  - (if decide (order_id it = k) then OrderItem_total it else 0).
Proof.
  revert i. induction l as [|x l IH]; intros [|i] Hi; try done.
  - cbn in Hi. injection Hi as ->.
    change (delete 0%nat (it :: l)) with l. rewrite order_sum_cons. lia.
  - cbn in Hi. change (delete (S i) (x :: l)) with (x :: delete i l).
    rewrite !order_sum_cons, (IH i) by done. lia.
Qed.
End OrderSum.

(** Rewriting the row of one order and the item table keeps the invariant
    when the new total is the new sum and the sums of the other orders are
    what they were. *)
Lemma total_consistent_update db k row l' ps ms :
  total_consistent db →
  total row = order_sum k l' →
  (∀ k', k' ≠ k → order_sum k' l' = order_sum k' (items db)) →
  total_consistent (mkDB ps (<[k := row]> (orders db)) l' ms).
Proof.
  intros Hdb Hrow Hothers k' o'. cbn [orders items].
  destruct (decide (k = k')) as [<-|Hne].
  - rewrite lookup_insert_eq. by intros [= <-].
  - rewrite lookup_insert_ne by done. intros Ho'.
    rewrite Hothers by done. by apply Hdb.
Qed.

Lemma handle_total_consistent db now r :
  total_consistent db → total_consistent (handle db now r).1.
Proof.
  intros Hdb.
  destruct (orders db !! target r) as [o|] eqn:Ho;
    [|by rewrite handler_missing].
  pose proof (Hdb _ _ Ho) as Htot.
  destruct (closed (status o)) eqn:Hcl.
  { destruct r; cbn in *.
    - by erewrite complete_closed.
    - by erewrite add_item_closed.
    - by erewrite remove_item_closed.
    - by erewrite cancel_closed.
    - by rewrite destroy_raises. }
  pose proof Hcl as Hst%closed_false.
  destruct r as [k|k p qty|k p dec_qty|k|k]; cbn [handle target] in *.
  - destruct (already_applied db (mkInstance k o None)) eqn:Happ.
    + erewrite complete_applied by done. by apply total_consistent_update.
    + destruct (insufficient_items db k) as [|s l] eqn:Hins.
      * erewrite complete_reserved by done. unfold set_orders. cbn [fst].
        rewrite reserve_items_orders, reserve_items_items.
        by apply total_consistent_update.
      * by erewrite complete_refused by (done || by rewrite Hins).
  - destruct (products db !! p) as [pr|] eqn:Hp.
    + destruct (decide (stock pr < qty)).
      { by erewrite add_item_refused. }
      destruct (first_item db k p) as [[i it]|] eqn:Hfirst.
      * destruct (first_item_lookup _ _ _ _ _ Hfirst) as (Hi & Hk & _).
        erewrite add_item_merge by (done || lia).
        apply total_consistent_update; [done| |].
        -- erewrite order_sum_insert by done. rewrite decide_True by done.
           unfold OrderItem_total. cbn. lia.
        -- intros k' Hne. erewrite order_sum_insert by done.
           rewrite decide_False by congruence. lia.
      * erewrite add_item_create by (done || lia).
        apply total_consistent_update; [done| |].
        -- rewrite order_sum_app, decide_True by done.
           unfold OrderItem_total. cbn. lia.
        -- intros k' Hne. rewrite order_sum_app, decide_False by done. lia.
    + unfold add_item, get_object. rewrite Ho. cbn [fields].
      by rewrite Hcl, Hp.
  - destruct (products db !! p) as [pr|] eqn:Hp.
    + destruct (first_item db k p) as [[i it]|] eqn:Hfirst.
      * destruct (first_item_lookup _ _ _ _ _ Hfirst) as (Hi & Hk & _).
        erewrite remove_item_ok by done.
        apply total_consistent_update; [done| |].
        -- case_decide as Hm.
           ++ erewrite order_sum_delete by done. rewrite decide_True by done.
              unfold OrderItem_total. cbn. rewrite Hm. lia.
           ++ erewrite order_sum_insert by done. rewrite decide_True by done.
              unfold OrderItem_total. cbn. lia.
        -- intros k' Hne. case_decide.
           ++ erewrite order_sum_delete by done.
              rewrite decide_False by congruence. lia.
           ++ erewrite order_sum_insert by done.
              rewrite decide_False by congruence. lia.
      * by erewrite remove_item_missing.
    + unfold remove_item, get_object. rewrite Ho. cbn [fields].
      by rewrite Hcl, Hp.
  - erewrite cancel_pending by done. by apply total_consistent_update.
  - by rewrite destroy_raises.
Qed.

(** A single order as [create] makes it, without items, has the total of
    its (empty) lines. *)
Lemma new_order_consistent ps ms k c now :
  total_consistent (mkDB ps {[k := new_order c now]} [] ms).
Proof.
  intros k' o'. cbn [orders items].
  intros [_ <-]%lookup_singleton_Some. reflexivity.
Qed.

Lemma run_total_consistent db trace :
  total_consistent db → total_consistent (run db trace).
Proof.
  revert db. induction trace as [|[t r] trace IH]; intros db Hdb; [done|].
  apply IH. by apply handle_total_consistent.
Qed.

(** C1. In a database where the total of every order is the sum of
    [quantity * price] over its items, the same holds after any request
    ([Complete], [AddItem], [RemoveItem], [Cancel], [Delete]) has been
    served: for every order, the total stored is the sum over the items it
    holds then. *)
Theorem total_is_sum_of_line_totals db now r :
  total_consistent db →
  ∀ k o, orders (handle db now r).1 !! k = Some o →
         total o = order_sum k (items (handle db now r).1).
Proof. intros Hdb. by apply handle_total_consistent. Qed.

Lemma total_is_sum_of_line_totals_witness :
  total_consistent db_new ∧
  total (mkOrder "ana" 750 PENDING 100 200 CHANGE_UPDATE) =
  order_sum 7 (items (handle db_new 200 (AddItem 7 2 3)).1).
Proof.
  split; [apply new_order_consistent|].
  apply (total_is_sum_of_line_totals db_new 200 (AddItem 7 2 3)
           (new_order_consistent _ _ _ _ _) 7).
  reflexivity.
Defined.

Example total_after_add_item :
  total <$> orders (handle db_new 200 (AddItem 7 2 3)).1 !! 7 = Some 750 ∧
  items (handle db_new 200 (AddItem 7 2 3)).1 = [mkOrderItem 7 2 3 250].
Proof. split; reflexivity. Qed.

(** ** C10: [add_item] sells, so [complete] has nothing left to sell *)

Lemma exists_mv_app db db' extra p c :
  movements db' = movements db ++ extra →
  exists_mv db p c = true → exists_mv db' p c = true.
Proof.
  unfold exists_mv. intros -> Hmv. rewrite existsb_app, Hmv. done.
Qed.

Lemma exists_mv_sale db' ms p q now c :
  movements db' = ms ++ [mkMovement p q "salida" "venta" now] →
  c ≤ now → exists_mv db' p c = true.
Proof.
  unfold exists_mv. intros -> Hle. rewrite existsb_app. cbn.
  unfold sale_outflow_since. cbn.
  rewrite !bool_decide_eq_true_2 by done. cbn. apply orb_true_r.
Qed.

Lemma reserve_items_movements now its db :
  ∃ extra, movements (reserve_items now its db) = movements db ++ extra.
Proof.
  revert db. induction its as [|ip its IH]; intros db.
  - exists []. by rewrite app_nil_r.
  - unfold reserve_items in *. cbn [foldl].
    destruct (IH (create_movement (product_id ip.1) (quantity ip.1) "salida"
                    "venta" now
                    (update_stock (product_id ip.1) (- quantity ip.1) db)))
      as [extra ->].
    unfold_db. rewrite <- app_assoc. eauto.
Qed.

(** The items of an order stay sold when every row of the new item table
    either comes from a row of the old one with the same order and product,
    or is for a product sold since, and the log has only grown. *)
Lemma sold_since_frame db db' k c :
  (∀ it', it' ∈ items db' →
     (∃ it, it ∈ items db ∧ order_id it = order_id it'
            ∧ product_id it = product_id it')
     ∨ exists_mv db' (product_id it') c = true) →
  (∃ extra, movements db' = movements db ++ extra) →
  sold_since db k c → sold_since db' k c.
Proof.
  intros Hitems [extra Hms] Hsold it' Hin Hk.
  destruct (Hitems it' Hin) as [(it & Hin0 & Hid & Hpid) | Hmv]; [|done].
  rewrite <- Hpid. eapply exists_mv_app; [done|].
  apply Hsold; [done|congruence].
Qed.

Lemma elem_of_insert_inv {A} (l : list A) i x y :
  y ∈ <[i := x]> l → y = x ∨ y ∈ l.
Proof.
  intros (j & Hj)%list_elem_of_lookup.
  apply list_lookup_insert_Some in Hj as [(_ & -> & _) | (_ & Hj)].
  - by left.
  - right. by eapply list_elem_of_lookup_2.
Qed.

Lemma handle_sold_since db now r k c :
  c ≤ now → sold_since db k c → sold_since (handle db now r).1 k c.
Proof.
  intros Hle Hsold.
  destruct (orders db !! target r) as [o|] eqn:Ho;
    [|by rewrite handler_missing].
  destruct (closed (status o)) eqn:Hcl.
  { destruct r; cbn in *.
    - by erewrite complete_closed.
    - by erewrite add_item_closed.
    - by erewrite remove_item_closed.
    - by erewrite cancel_closed.
    - by rewrite destroy_raises. }
  pose proof Hcl as Hst%closed_false.
  destruct r as [k0|k0 p qty|k0 p dec_qty|k0|k0]; cbn [handle target] in *.
  - destruct (already_applied db (mkInstance k0 o None)) eqn:Happ.
    + erewrite complete_applied by done. exact Hsold.
    + destruct (insufficient_items db k0) as [|s l] eqn:Hins.
      * erewrite complete_reserved by done.
        eapply sold_since_frame; [| |exact Hsold].
        -- unfold set_orders; cbn [fst items movements product_id order_id]. rewrite reserve_items_items. intros it' Hin. same_row.
        -- unfold set_orders; cbn [fst items movements product_id order_id]. apply reserve_items_movements.
      * by erewrite complete_refused by (done || by rewrite Hins).
  - destruct (products db !! p) as [pr|] eqn:Hp.
    + destruct (decide (stock pr < qty)).
      { by erewrite add_item_refused. }
      destruct (first_item db k0 p) as [[i it]|] eqn:Hfirst.
      * destruct (first_item_lookup _ _ _ _ _ Hfirst) as (Hi & _ & _).
        erewrite add_item_merge by (done || lia).
        eapply sold_since_frame; [| |exact Hsold].
        -- unfold set_orders; cbn [fst items movements product_id order_id]. intros it' [-> | Hin]%elem_of_insert_inv; [|same_row].
           left. exists it. split; [by eapply list_elem_of_lookup_2|done].
        -- unfold set_orders; cbn [fst items movements product_id order_id]. eauto.
      * erewrite add_item_create by (done || lia).
        eapply sold_since_frame; [| |exact Hsold].
        -- unfold set_orders; cbn [fst items movements product_id order_id]. intros it' [Hin | ->%list_elem_of_singleton]%elem_of_app;
             [same_row|].
           right. by eapply exists_mv_sale.
        -- unfold set_orders; cbn [fst items movements product_id order_id]. eauto.
    + unfold add_item, get_object. rewrite Ho. cbn [fields].
      by rewrite Hcl, Hp.
  - destruct (products db !! p) as [pr|] eqn:Hp.
    + destruct (first_item db k0 p) as [[i it]|] eqn:Hfirst.
      * destruct (first_item_lookup _ _ _ _ _ Hfirst) as (Hi & _ & _).
        erewrite remove_item_ok by done.
        eapply sold_since_frame; [| |exact Hsold].
        -- unfold set_orders; cbn [fst items movements product_id order_id]. intros it' Hin. case_decide.
           ++ apply list_elem_of_delete_inv in Hin. same_row.
           ++ apply elem_of_insert_inv in Hin as [-> | Hin]; [|same_row].
              left. exists it. split; [by eapply list_elem_of_lookup_2|done].
        -- unfold set_orders; cbn [fst items movements product_id order_id]. eauto.
      * by erewrite remove_item_missing.
    + unfold remove_item, get_object. rewrite Ho. cbn [fields].
      by rewrite Hcl, Hp.
  - erewrite cancel_pending by done. exact Hsold.
  - by rewrite destroy_raises.
Qed.

(** No request changes [created_at]. *)
Lemma handle_created_at db now r k o' :
  orders (handle db now r).1 !! k = Some o' →
  ∃ o, orders db !! k = Some o ∧ created_at o = created_at o'.
Proof.
  destruct (handle_orders db now r) as [-> | (o & row & Ho & _ & Hc & ->)].
  - eauto.
  - destruct (decide (target r = k)) as [<-|Hne].
    + rewrite lookup_insert_eq. intros [= <-]. eauto.
    + rewrite lookup_insert_ne by done. eauto.
Qed.

Lemma run_sold_since trace : ∀ db k o',
  orders (run db trace) !! k = Some o' →
  Forall (λ tr : Z * Request, created_at o' ≤ tr.1) trace →
  sold_since db k (created_at o') →
  sold_since (run db trace) k (created_at o').
Proof.
  induction trace as [|[t r] trace IH]; intros db k o' Ho' Hle Hsold; [done|].
  apply Forall_cons in Hle as [Ht Hle]. cbn in *.
  apply IH; [done..|]. by apply handle_sold_since.
Qed.

Lemma run_created_at trace : ∀ db k o',
  orders (run db trace) !! k = Some o' →
  ∃ o, orders db !! k = Some o ∧ created_at o = created_at o'.
Proof.
  induction trace as [|[t r] trace IH]; intros db k o' Ho'; [eauto|].
  cbn in Ho'. apply IH in Ho' as (o1 & Ho1 & <-).
  by apply handle_created_at in Ho1.
Qed.

Lemma add_item_sells db k p qty now o pr :
  orders db !! k = Some o → status o = PENDING →
  products db !! p = Some pr → qty ≤ stock pr →
  stock <$> products (add_item db k p qty now).1 !! p = Some (stock pr - qty) ∧
  movements (add_item db k p qty now).1 =
  movements db ++ [mkMovement p qty "salida" "venta" now].
Proof.
  intros Ho Hst%closed_false Hp Hq.
  destruct (first_item db k p) as [[i it]|] eqn:Hfirst.
  - erewrite add_item_merge by done. cbn [fst products movements].
    by rewrite lookup_insert_eq.
  - erewrite add_item_create by done. cbn [fst products movements].
    by rewrite lookup_insert_eq.
Qed.

Lemma complete_sold db k now o :
  orders db !! k = Some o → status o = PENDING →
  Forall (λ ip : OrderItem * Product,
            exists_mv db (product_id ip.1) (created_at o) = true)
         (order_items db k) →
  complete db k now =
  (mkDB (products db)
        (<[k := mkOrder (customer_name o) (total o) COMPLETED (created_at o)
                        now CHANGE_COMPLETED]> (orders db))
        (items db) (movements db),
   Return (mkResponse
             (OrderData (mkOrder (customer_name o) (total o) COMPLETED
                                 (created_at o) now CHANGE_COMPLETED))
             HTTP_200_OK)).
Proof.
  intros Ho Hst Hall. erewrite complete_applied; [done..|].
  apply already_applied_true. by apply Forall_forall.
Qed.

Lemma sold_since_order_items db k c :
  sold_since db k c →
  Forall (λ ip : OrderItem * Product,
            exists_mv db (product_id ip.1) c = true) (order_items db k).
Proof.
  intros Hsold. apply Forall_forall. intros [it pr] Hin.
  apply elem_of_order_items in Hin as (Hin & Hk & _). by apply Hsold.
Qed.

(** C10. (1) A successful [add_item] takes the quantity from the product's
    stock and appends a "salida"/"venta" movement stamped with the time of
    the call. (2) On a pending order each of whose items has such a movement
    of its product stamped at or after the order's [created_at], [complete]
    leaves the product table and the movement log as they are and writes
    status [COMPLETED] and change type [CHANGE_COMPLETED] into the row of
    the order. (3) That is the case of any order that had no items and
    received them through requests served at or after its creation: after
    any such sequence of requests, [complete] on the still pending order
    sells nothing and marks it completed. *)
Theorem add_item_sells_so_complete_skips :
  (∀ db k p qty now o pr,
     orders db !! k = Some o → status o = PENDING →
     products db !! p = Some pr → qty ≤ stock pr →
     stock <$> products (add_item db k p qty now).1 !! p
     = Some (stock pr - qty) ∧
     movements (add_item db k p qty now).1 =
     movements db ++ [mkMovement p qty "salida" "venta" now]) ∧
  (∀ db k now o,
     orders db !! k = Some o → status o = PENDING →
     Forall (λ ip : OrderItem * Product,
               exists_mv db (product_id ip.1) (created_at o) = true)
            (order_items db k) →
     complete db k now =
     (mkDB (products db)
           (<[k := mkOrder (customer_name o) (total o) COMPLETED (created_at o)
                           now CHANGE_COMPLETED]> (orders db))
           (items db) (movements db),
      Return (mkResponse
                (OrderData (mkOrder (customer_name o) (total o) COMPLETED
                                    (created_at o) now CHANGE_COMPLETED))
                HTTP_200_OK))) ∧
  (∀ db k o trace now o',
     orders db !! k = Some o →
     Forall (λ it, order_id it ≠ k) (items db) →
     Forall (λ tr : Z * Request, created_at o ≤ tr.1) trace →
     orders (run db trace) !! k = Some o' → status o' = PENDING →
     complete (run db trace) k now =
     (mkDB (products (run db trace))
           (<[k := mkOrder (customer_name o') (total o') COMPLETED
                           (created_at o) now CHANGE_COMPLETED]>
              (orders (run db trace)))
           (items (run db trace)) (movements (run db trace)),
      Return (mkResponse
                (OrderData (mkOrder (customer_name o') (total o') COMPLETED
                                    (created_at o) now CHANGE_COMPLETED))
                HTTP_200_OK))).
Proof.
  split; [|split].
  - intros db k p qty now o pr Ho Hst Hp Hq.
    by apply (add_item_sells db k p qty now o pr).
  - intros db k now o Ho Hst Hall. by apply (complete_sold db k now o).
  - intros db k o trace now o' Ho Hnone Hle Ho' Hst.
    destruct (run_created_at _ _ _ _ Ho') as (o1 & Ho1 & Hc).
    rewrite Ho in Ho1. injection Ho1 as <-. rewrite Hc in *.
    apply complete_sold; [done..|].
    apply sold_since_order_items, run_sold_since; [done..|].
    intros it Hin Hk. rewrite Forall_forall in Hnone. by destruct (Hnone it).
Qed.

Lemma add_item_sells_so_complete_skips_witness :
  (stock <$> products (add_item db0 2 2 3 200).1 !! 2 = Some 4 ∧
   movements (add_item db0 2 2 3 200).1 =
   movements db0 ++ [mkMovement 2 3 "salida" "venta" 200]) ∧
  (products (complete db0 1 200).1 = products db0 ∧
   movements (complete db0 1 200).1 = movements db0) ∧
  (products (complete (run db_new [(200, AddItem 7 2 3); (201, AddItem 7 1 1)])
                      7 300).1
   = products (run db_new [(200, AddItem 7 2 3); (201, AddItem 7 1 1)]) ∧
   movements (complete (run db_new [(200, AddItem 7 2 3); (201, AddItem 7 1 1)])
                       7 300).1
   = movements (run db_new [(200, AddItem 7 2 3); (201, AddItem 7 1 1)]) ∧
   status <$> orders (complete (run db_new [(200, AddItem 7 2 3);
                                            (201, AddItem 7 1 1)])
                               7 300).1 !! 7 = Some COMPLETED).
Proof.
  destruct add_item_sells_so_complete_skips as (Hadd & Hdone & Hrun).
  split; [|split].
  - apply (Hadd db0 2 2 3 200
             (mkOrder "bob" 500 PENDING 100 100 CHANGE_CREATED)
             (mkProduct "ink" 250 7)); try reflexivity. cbn. lia.
  - rewrite (Hdone db0 1 200
               (mkOrder "ana" 5000 PENDING 100 105 CHANGE_UPDATE)
               eq_refl eq_refl);
      [split; reflexivity|].
    vm_compute. repeat constructor.
  - rewrite (Hrun db_new 7 (new_order "ana" 100)
               [(200, AddItem 7 2 3); (201, AddItem 7 1 1)] 300
               (mkOrder "ana" 1750 PENDING 100 201 CHANGE_UPDATE));
      [ split; [reflexivity | split; [reflexivity |] ];
        cbn [fst orders]; by rewrite lookup_insert_eq
      | reflexivity
      | constructor
      | repeat constructor; cbn; lia
      | reflexivity
      | reflexivity ].
Defined.

(** * Further properties of the handlers *)

(** ** Every request is served in one of the listed ways *)

Lemma pending_not_closed s : s = PENDING → closed s = false.
Proof. by intros ->. Qed.

Lemma complete_served db now k : Served db now (Complete k) (complete db k now).
Proof.
  destruct (orders db !! k) as [o|] eqn:Ho.
  - destruct (status o) eqn:Hst.
    + destruct (already_applied db (mkInstance k o None)) eqn:Happ.
      * erewrite complete_applied by done. by eapply served_complete_applied.
      * destruct (insufficient_items db k) as [|s l] eqn:Hins.
        -- erewrite complete_reserved by done.
           by eapply served_complete_reserved.
        -- erewrite complete_refused by (done || by rewrite Hins).
           eapply served_complete_refused; [done..|by rewrite Hins].
    + unfold complete, get_object. rewrite Ho. cbn [fields]. rewrite Hst.
      by eapply served_complete_completed.
    + unfold complete, get_object. rewrite Ho. cbn [fields]. rewrite Hst.
      by eapply served_complete_canceled.
  - unfold complete, get_object. rewrite Ho.
    by apply (served_unknown db now (Complete k)).
Qed.

Lemma add_item_served db now k p qty :
  Served db now (AddItem k p qty) (add_item db k p qty now).
Proof.
  destruct (orders db !! k) as [o|] eqn:Ho.
  - destruct (closed (status o)) eqn:Hcl.
    { erewrite add_item_closed by done. by eapply served_add_closed. }
    pose proof (proj1 (closed_false _) Hcl) as Hst.
    destruct (products db !! p) as [pr|] eqn:Hp.
    + destruct (decide (stock pr < qty)).
      { erewrite add_item_refused by done. by eapply served_add_refused. }
      destruct (first_item db k p) as [[i it]|] eqn:Hfirst.
      * erewrite add_item_merge by (done || lia). rewrite Hst.
        eapply served_add_merge; (done || lia).
      * erewrite add_item_create by (done || lia). rewrite Hst.
        eapply served_add_create; (done || lia).
    + unfold add_item, get_object. rewrite Ho. cbn [fields].
      rewrite Hcl, Hp. by eapply served_add_no_product.
  - unfold add_item, get_object. rewrite Ho.
    by apply (served_unknown db now (AddItem k p qty)).
Qed.

Lemma remove_item_served db now k p dec_qty :
  Served db now (RemoveItem k p dec_qty) (remove_item db k p dec_qty now).
Proof.
  destruct (orders db !! k) as [o|] eqn:Ho.
  - destruct (closed (status o)) eqn:Hcl.
    { erewrite remove_item_closed by done. by eapply served_remove_closed. }
    pose proof (proj1 (closed_false _) Hcl) as Hst.
    destruct (products db !! p) as [pr|] eqn:Hp.
    + destruct (first_item db k p) as [[i it]|] eqn:Hfirst.
      * erewrite remove_item_ok by done. rewrite Hst.
        by eapply served_remove_ok.
      * erewrite remove_item_missing by done.
        by eapply served_remove_missing.
    + unfold remove_item, get_object. rewrite Ho. cbn [fields].
      rewrite Hcl, Hp. by eapply served_remove_no_product.
  - unfold remove_item, get_object. rewrite Ho.
    by apply (served_unknown db now (RemoveItem k p dec_qty)).
Qed.

Lemma cancel_served db now k : Served db now (Cancel k) (cancel db k now).
Proof.
  destruct (orders db !! k) as [o|] eqn:Ho.
  - destruct (status o) eqn:Hst.
    + erewrite cancel_pending by done. by eapply served_cancel_pending.
    + unfold cancel, get_object. rewrite Ho. cbn [fields]. rewrite Hst.
      by eapply served_cancel_completed.
    + unfold cancel, get_object. rewrite Ho. cbn [fields]. rewrite Hst.
      by eapply served_cancel_canceled.
  - unfold cancel, get_object. rewrite Ho.
    by apply (served_unknown db now (Cancel k)).
Qed.

Lemma handle_served db now r : Served db now r (handle db now r).
Proof.
  destruct r as [k|k p qty|k p dec_qty|k|k]; cbn [handle].
  - apply complete_served.
  - apply add_item_served.
  - apply remove_item_served.
  - apply cancel_served.
  - rewrite destroy_raises. destruct (orders db !! k) as [o|] eqn:Ho.
    + by eapply served_delete.
    + by apply (served_unknown db now (Delete k)).
Qed.

(** Case analysis on the way the request [r] is served. *)
Ltac by_service db now r :=
  let H := fresh "Hserved" in
  pose proof (handle_served db now r) as H;
  revert H; generalize (handle db now r); intros ? H;
  inversion H; subst; clear H.

(** A lookup at key [j] in a table rewritten at one key: the two cases. *)
Ltac at_key j :=
  match goal with
  | |- context [<[?i := _]> _ !! j] =>
      let Hne := fresh "Hne" in
      destruct (decide (i = j)) as [->|Hne];
      [ rewrite lookup_insert_eq;
        repeat match goal with
               | H : _ !! j = Some _ |- _ => rewrite H; clear H
               end;
        try done
      | rewrite lookup_insert_ne by done; try done ]
  end.

(** ** Error paths *)

(** A request addressed to an order that does not exist raises 404 and
    changes nothing, whatever the request. *)
Theorem unknown_order_is_not_found db now r :
  orders db !! target r = None →
  handle db now r = (db, Raise Http404).
Proof.
  intros Hk.
  destruct r; cbn in *;
    unfold complete, add_item, remove_item, cancel, destroy, get_object;
    by rewrite Hk.
Qed.

Lemma unknown_order_is_not_found_witness :
  handle db0 200 (AddItem 9 1 1) = (db0, Raise Http404).
Proof.
  apply (unknown_order_is_not_found db0 200 (AddItem 9 1 1)). reflexivity.
Defined.

(** A request addressed to a completed or canceled order never answers 200
    and returns the database it received: stock, items, movements and every
    order row are what they were. *)
Theorem closed_order_is_frozen db now r o :
  orders db !! target r = Some o →
  status o = COMPLETED ∨ status o = CANCELED →
  (handle db now r).1 = db ∧
  ∀ d, (handle db now r).2 ≠ Return (mkResponse d HTTP_200_OK).
Proof.
  intros Ho Hst.
  assert (status o ≠ PENDING) as Hnp by (destruct Hst; congruence).
  by_service db now r; cbn [target fst snd] in *;
    try (split; [reflexivity | intros d; discriminate]);
    congruence.
Qed.

Lemma closed_order_is_frozen_witness :
  (handle db0 200 (RemoveItem 4 1 1)).1 = db0.
Proof.
  apply (closed_order_is_frozen db0 200 (RemoveItem 4 1 1)
           (mkOrder "leo" 0 CANCELED 100 110 CHANGE_CANCELED));
    [reflexivity | right; reflexivity].
Defined.

(** [add_item] and [remove_item] on a completed or canceled order answer 400
    "You can't modify a completed/canceled order." before looking at the
    payload: the product need not exist and the quantity is not examined. *)
Theorem closed_order_rejects_item_changes db k p qty now o :
  orders db !! k = Some o →
  status o = COMPLETED ∨ status o = CANCELED →
  add_item db k p qty now =
  (db, Return (bad_request
                 (Detail "You can't modify a completed/canceled order."))) ∧
  remove_item db k p qty now =
  (db, Return (bad_request
                 (Detail "You can't modify a completed/canceled order."))).
Proof.
  intros Ho Hst%closed_true. split.
  - by eapply add_item_closed.
  - by eapply remove_item_closed.
Qed.

Lemma closed_order_rejects_item_changes_witness :
  add_item db0 3 77 (-5) 200 =
  (db0, Return (bad_request
                  (Detail "You can't modify a completed/canceled order."))).
Proof.
  apply (closed_order_rejects_item_changes db0 3 77 (-5) 200
           (mkOrder "eva" 0 COMPLETED 100 110 CHANGE_COMPLETED));
    [reflexivity | left; reflexivity].
Defined.

(** [add_item] asking for more than the product's stock answers 400 with
    the product's name in the message and the stock as [available]; nothing
    is written. *)
Theorem add_item_insufficient_stock db k p qty now o pr :
  orders db !! k = Some o → status o = PENDING →
  products db !! p = Some pr → stock pr < qty →
  add_item db k p qty now =
  (db, Return (mkResponse
                 (DetailAvailable
                    ("Insufficient stock for '" +:+ name pr +:+ "'.")
                    (stock pr))
                 HTTP_400_BAD_REQUEST)).
Proof.
  intros Ho Hst%closed_false Hp Hlt. by eapply add_item_refused.
Qed.

Lemma add_item_insufficient_stock_witness :
  add_item db0 2 1 4 200 =
  (db0, Return (mkResponse
                  (DetailAvailable "Insufficient stock for 'pen'." 3)
                  HTTP_400_BAD_REQUEST)).
Proof.
  apply (add_item_insufficient_stock db0 2 1 4 200
           (mkOrder "bob" 500 PENDING 100 100 CHANGE_CREATED)
           (mkProduct "pen" 1000 3)); try reflexivity.
Defined.

(** [remove_item] for a product of which the order holds no row answers 400
    "Product '<name>' is not in this order."; nothing is written, and no
    stock is returned. *)
Theorem remove_item_not_in_order db k p dec_qty now o pr :
  orders db !! k = Some o → status o = PENDING →
  products db !! p = Some pr →
  Forall (λ it, ¬ (order_id it = k ∧ product_id it = p)) (items db) →
  remove_item db k p dec_qty now =
  (db, Return (mkResponse
                 (Detail ("Product '" +:+ name pr
                          +:+ "' is not in this order."))
                 HTTP_400_BAD_REQUEST)).
Proof.
  intros Ho Hst%closed_false Hp Hnone. eapply remove_item_missing; [done..|].
  by apply list_find_None.
Qed.

Lemma remove_item_not_in_order_witness :
  remove_item db0 2 1 1 200 =
  (db0, Return (mkResponse (Detail "Product 'pen' is not in this order.")
                           HTTP_400_BAD_REQUEST)).
Proof.
  apply (remove_item_not_in_order db0 2 1 1 200
           (mkOrder "bob" 500 PENDING 100 100 CHANGE_CREATED)
           (mkProduct "pen" 1000 3)); try reflexivity.
  repeat constructor; cbn; intros [? ?]; lia.
Defined.

(** [cancel] on a completed order answers 400 "Completed orders cannot be
    canceled.", on a canceled one 400 "Order is already canceled."; the
    database is the one received. *)
Theorem cancel_closed_order db k now o :
  orders db !! k = Some o →
  (status o = COMPLETED →
   cancel db k now =
   (db, Return (bad_request (Detail "Completed orders cannot be canceled.")))) ∧
  (status o = CANCELED →
   cancel db k now =
   (db, Return (bad_request (Detail "Order is already canceled.")))).
Proof.
  intros Ho. unfold cancel, get_object. rewrite Ho. cbn [fields].
  split; intros ->; reflexivity.
Qed.

Lemma cancel_closed_order_witness :
  cancel db0 3 200 =
  (db0, Return (bad_request (Detail "Completed orders cannot be canceled."))).
Proof.
  apply (cancel_closed_order db0 3 200
           (mkOrder "eva" 0 COMPLETED 100 110 CHANGE_COMPLETED));
    reflexivity.
Defined.

(** ** What the third loop of [complete] does to the tables *)

Lemma reserve_items_cons now ip its db :
  reserve_items now (ip :: its) db =
  reserve_items now its
    (create_movement (product_id ip.1) (quantity ip.1) "salida" "venta" now
       (update_stock (product_id ip.1) (- quantity ip.1) db)).
Proof. reflexivity. Qed.

Lemma asked_cons p ip its :
  asked p (ip :: its) =
  (if decide (product_id ip.1 = p) then quantity ip.1 else 0) + asked p its.
Proof. unfold asked. rewrite filter_cons. by case_decide. Qed.

Lemma reserve_items_products now its : ∀ db p,
  products (reserve_items now its db) !! p =
  (λ pr, mkProduct (name pr) (unit_price pr) (stock pr - asked p its))
    <$> products db !! p.
Proof.
  induction its as [|ip its IH]; intros db p.
  - cbn. destruct (products db !! p) as [[n u s]|]; [|done].
    cbn. do 2 f_equal. unfold asked. cbn. lia.
  - rewrite reserve_items_cons, IH, asked_cons. unfold_db.
    rewrite lookup_alter. case_decide as Hp.
    + subst p.
      destruct (products db !! product_id ip.1) as [[n u s]|]; [|done].
      cbn. do 2 f_equal. lia.
    + destruct (products db !! p) as [[n u s]|]; [|done].
      cbn. do 2 f_equal.
Qed.

Lemma reserve_items_log now its : ∀ db,
  movements (reserve_items now its db) =
  movements db
  ++ ((λ ip : OrderItem * Product,
         mkMovement (product_id ip.1) (quantity ip.1) "salida" "venta" now)
      <$> its).
Proof.
  induction its as [|ip its IH]; intros db.
  - cbn. by rewrite app_nil_r.
  - rewrite reserve_items_cons, IH. unfold_db. by rewrite <- app_assoc.
Qed.

(** ** What no request does *)

(** The movement log only grows: a request appends movements stamped with
    the time it is served at, and never removes or rewrites one. *)
Theorem movements_are_append_only db now r :
  ∃ extra, movements (handle db now r).1 = movements db ++ extra ∧
           Forall (λ mv, timestamp mv = now) extra.
Proof.
  by_service db now r; unfold set_orders; cbn [fst movements];
    try (exists []; split; [by rewrite app_nil_r | constructor]);
    try (eexists; split; [reflexivity | by repeat constructor]).
  rewrite reserve_items_log. eexists. split; [reflexivity|].
  apply Forall_fmap, Forall_true. done.
Qed.

(** No request creates, deletes, renames or reprices a product: only the
    stock column is ever written. *)
Theorem products_keep_name_and_price db now r p :
  (λ pr, (name pr, unit_price pr)) <$> products (handle db now r).1 !! p =
  (λ pr, (name pr, unit_price pr)) <$> products db !! p.
Proof.
  by_service db now r; unfold set_orders; cbn [fst products]; try done.
  - rewrite reserve_items_products. by destruct (products db !! p).
  - at_key p.
  - at_key p.
  - at_key p.
Qed.

(** No request creates or deletes an order, and none changes the customer
    name or the creation time of one. *)
Theorem orders_keep_customer_and_creation db now r k :
  (λ o, (customer_name o, created_at o)) <$> orders (handle db now r).1 !! k =
  (λ o, (customer_name o, created_at o)) <$> orders db !! k.
Proof.
  by_service db now r; unfold set_orders; cbn [fst orders];
    rewrite ?reserve_items_orders; try done; at_key k.
Qed.



(** The order a 200 response carries is the row as it is stored when the
    request returns. *)
Theorem response_is_the_stored_row db now r o c :
  (handle db now r).2 = Return (mkResponse (OrderData o) c) →
  orders (handle db now r).1 !! target r = Some o.
Proof.
  by_service db now r; unfold set_orders; cbn [fst snd target orders];
    intros [= <- <-] || intros [=]; apply lookup_insert_eq.
Qed.

Lemma response_is_the_stored_row_witness :
  orders (handle db0 200 (Cancel 2)).1 !! 2 =
  Some (mkOrder "bob" 500 CANCELED 100 200 CHANGE_CANCELED).
Proof.
  apply (response_is_the_stored_row db0 200 (Cancel 2) _ HTTP_200_OK).
  reflexivity.
Defined.

(** ** Invariants of the item table *)

Lemma handle_quantities_positive db now r :
  positive_payload r →
  Forall (λ it, 0 < quantity it) (items db) →
  Forall (λ it, 0 < quantity it) (items (handle db now r).1).
Proof.
  intros Hpos Hall.
  by_service db now r; unfold set_orders;
    cbn [fst items positive_payload] in *;
    rewrite ?reserve_items_items; try done.
  - match goal with H : first_item _ _ _ = Some _ |- _ =>
      apply first_item_lookup in H as (Hi & _ & _) end.
    pose proof (Forall_lookup_1 _ _ _ _ Hall Hi) as Hq. cbn in Hq.
    apply Forall_insert; [done|]. cbn. lia.
  - apply Forall_app. split; [done|]. by repeat constructor.
  - match goal with H : first_item _ _ _ = Some _ |- _ =>
      apply first_item_lookup in H as (Hi & _ & _) end.
    pose proof (Forall_lookup_1 _ _ _ _ Hall Hi) as Hq. cbn in Hq.
    case_decide.
    + by apply Forall_delete.
    + apply Forall_insert; [done|]. cbn. lia.
Qed.

(** Stored quantities stay positive: with a positive quantity in the
    payload, a request leaves no row at zero or below. [remove_item] deletes
    the row it empties. *)
Theorem quantities_stay_positive db now r :
  positive_payload r →
  Forall (λ it, 0 < quantity it) (items db) →
  Forall (λ it, 0 < quantity it) (items (handle db now r).1).
Proof. apply handle_quantities_positive. Qed.

Lemma quantities_stay_positive_witness :
  Forall (λ it, 0 < quantity it) (items (handle db0 200 (RemoveItem 1 1 2)).1).
Proof.
  apply (quantities_stay_positive db0 200 (RemoveItem 1 1 2)).
  - cbn. lia.
  - repeat constructor.
Defined.

Lemma row_key_fresh db k p :
  first_item db k p = None → (k, p) ∉ row_key <$> items db.
Proof.
  unfold first_item. intros Hnone%list_find_None.
  intros (it & Hkey & Hin)%list_elem_of_fmap.
  rewrite Forall_forall in Hnone. apply (Hnone it Hin).
  unfold row_key in Hkey. by injection Hkey as <- <-.
Qed.

Lemma handle_row_keys_NoDup db now r :
  NoDup (row_key <$> items db) →
  NoDup (row_key <$> items (handle db now r).1).
Proof.
  intros Hnd.
  by_service db now r; unfold set_orders; cbn [fst items] in *;
    rewrite ?reserve_items_items; try done.
  - match goal with H : first_item _ _ _ = Some _ |- _ =>
      apply first_item_lookup in H as (Hi & _ & _) end.
    rewrite list_fmap_insert, list_insert_id; [done|].
    by rewrite list_lookup_fmap, Hi.
  - rewrite fmap_app. apply NoDup_app. split; [done|]. split.
    + intros key Hin ->%list_elem_of_singleton.
      by eapply row_key_fresh.
    + apply NoDup_singleton.
  - match goal with H : first_item _ _ _ = Some _ |- _ =>
      apply first_item_lookup in H as (Hi & _ & _) end.
    case_decide.
    + rewrite list_fmap_delete.
      eapply sublist_NoDup; [done|apply sublist_delete].
    + rewrite list_fmap_insert, list_insert_id; [done|].
      by rewrite list_lookup_fmap, Hi.
Qed.

(** An order never gets a second row for a product: if every (order,
    product) pair has at most one row, it is so after any request. *)
Theorem one_row_per_order_and_product db now r :
  NoDup (row_key <$> items db) →
  NoDup (row_key <$> items (handle db now r).1).
Proof. apply handle_row_keys_NoDup. Qed.

Lemma one_row_per_order_and_product_witness :
  NoDup (row_key <$> items (handle db0 200 (AddItem 2 1 1)).1).
Proof.
  apply (one_row_per_order_and_product db0 200 (AddItem 2 1 1)).
  vm_compute. repeat constructor; intros Hin; inversion Hin; subst;
    match goal with H : _ ∈ [] |- _ => inversion H
                  | H : _ ∈ _ :: _ |- _ => inversion H end.
Defined.

(** ** Stock and the units held by order rows *)

Section Held.
Variable p : Z.

Lemma held_cons it l :
  held p (it :: l) =
  (if decide (product_id it = p) then quantity it else 0) + held p l.
Proof. unfold held. rewrite filter_cons. by case_decide. Qed.

Lemma held_app l it :
  held p (l ++ [it]) =
  held p l + (if decide (product_id it = p) then quantity it else 0).
Proof.
  induction l as [|x l IH].
  - rewrite app_nil_l, held_cons. unfold held. cbn. lia.
  - rewrite <- app_comm_cons, !held_cons, IH. lia.
Qed.

Lemma held_insert l i it it' :
  l !! i = Some it → product_id it' = product_id it →
  held p (<[i := it']> l) =
  held p l + (if decide (product_id it = p)
              then quantity it' - quantity it else 0).
Proof.
  revert i. induction l as [|x l IH]; intros [|i] Hi Hid; try done.
  - cbn in Hi. injection Hi as ->.
    change (<[0%nat := it']> (it :: l)) with (it' :: l).
    rewrite !held_cons, Hid. case_decide; lia.
  - cbn in Hi. change (<[S i := it']> (x :: l)) with (x :: <[i := it']> l).
    rewrite !held_cons, (IH i) by done. lia.
Qed.

Lemma held_delete l i it :
  l !! i = Some it →
  held p (delete i l) =
  held p l - (if decide (product_id it = p) then quantity it else 0).
Proof.
  revert i. induction l as [|x l IH]; intros [|i] Hi; try done.
  - cbn in Hi. injection Hi as ->.
    change (delete 0%nat (it :: l)) with l. rewrite held_cons. lia.
  - cbn in Hi. change (delete (S i) (x :: l)) with (x :: delete i l).
    rewrite !held_cons, (IH i) by done. lia.
Qed.
End Held.

(** Units are neither created nor lost by [add_item], [remove_item],
    [cancel] and [destroy]: for every product, the stock plus the units held
    by order rows (of any order, whatever its status) is the same before and
    after. In particular [cancel] returns nothing to the stock: the units
    stay with the rows of the canceled order. *)
Theorem units_are_conserved db now r p :
  (∀ k, r ≠ Complete k) →
  (λ pr, stock pr + held p (items (handle db now r).1))
    <$> products (handle db now r).1 !! p =
  (λ pr, stock pr + held p (items db)) <$> products db !! p.
Proof.
  intros Hr.
  by_service db now r; unfold set_orders; cbn [fst items products];
    try done; try (by destruct (Hr k)).
  - match goal with H : first_item _ _ _ = Some _ |- _ =>
      apply first_item_lookup in H as (Hi & _ & Hpid) end.
    erewrite held_insert by done. rewrite Hpid. at_key p.
    + cbn. f_equal. lia.
    + by destruct (products db !! p); cbn; f_equal; lia.
  - rewrite held_app. cbn [product_id quantity]. at_key p.
    + cbn. f_equal. lia.
    + by destruct (products db !! p); cbn; f_equal; lia.
  - match goal with H : first_item _ _ _ = Some _ |- _ =>
      apply first_item_lookup in H as (Hi & _ & Hpid) end.
    case_decide as Hmin.
    + erewrite held_delete by done. rewrite Hpid. at_key p.
      * cbn. f_equal. lia.
      * by destruct (products db !! p); cbn; f_equal; lia.
    + erewrite held_insert by done. rewrite Hpid. at_key p.
      * cbn. f_equal. lia.
      * by destruct (products db !! p); cbn; f_equal; lia.
Qed.

Lemma units_are_conserved_witness :
  (λ pr, stock pr + held 2 (items (handle db0 200 (RemoveItem 2 2 1)).1))
    <$> products (handle db0 200 (RemoveItem 2 2 1)).1 !! 2 = Some 9.
Proof.
  rewrite (units_are_conserved db0 200 (RemoveItem 2 2 1) 2);
    [reflexivity | intros k; discriminate].
Defined.

(** ** The selling path of [complete] *)

Lemma sufficient_items db k :
  Forall (λ ip : OrderItem * Product, quantity ip.1 ≤ stock ip.2)
         (order_items db k) ↔
  insufficient_items db k = [].
Proof.
  split.
  - intros Hall. destruct (insufficient_items db k) as [|sf l] eqn:Hins;
      [done|].
    assert (sf ∈ insufficient_items db k) as Hsf by (rewrite Hins; left).
    apply elem_of_insufficient_items in Hsf as (it & pr & Hin & Hlt & _).
    rewrite Forall_forall in Hall. specialize (Hall _ Hin). cbn in Hall. lia.
  - intros Hnil. apply Forall_forall. intros [it pr] Hin. cbn.
    destruct (decide (stock pr < quantity it)) as [Hlt|]; [|lia].
    assert (mkShortfall (product_id it) (name pr) (quantity it) (stock pr)
            ∈ insufficient_items db k) as Hsf
      by (apply elem_of_insufficient_items; eauto).
    rewrite Hnil in Hsf. by apply elem_of_nil in Hsf.
Qed.

(** When [complete] does sell (the order is pending, some item has no sale
    outflow of its product since the order's creation, and every item finds
    its quantity in stock), each product loses the quantities the order's
    rows ask of it, one "salida"/"venta" movement is appended per row, in
    the order of the rows, the item table is untouched, and the order row is
    marked completed. *)
Theorem complete_sells_every_item db k now o :
  orders db !! k = Some o → status o = PENDING →
  (∃ ip, ip ∈ order_items db k ∧
         exists_mv db (product_id ip.1) (created_at o) = false) →
  Forall (λ ip : OrderItem * Product, quantity ip.1 ≤ stock ip.2)
         (order_items db k) →
  (∀ p, stock <$> products (complete db k now).1 !! p =
        (λ pr, stock pr - asked p (order_items db k)) <$> products db !! p) ∧
  movements (complete db k now).1 =
  movements db
  ++ ((λ ip : OrderItem * Product,
         mkMovement (product_id ip.1) (quantity ip.1) "salida" "venta" now)
      <$> order_items db k) ∧
  items (complete db k now).1 = items db ∧
  orders (complete db k now).1 =
  <[k := mkOrder (customer_name o) (total o) COMPLETED (created_at o) now
                 CHANGE_COMPLETED]> (orders db) ∧
  (complete db k now).2 =
  Return (mkResponse
            (OrderData (mkOrder (customer_name o) (total o) COMPLETED
                                (created_at o) now CHANGE_COMPLETED))
            HTTP_200_OK).
Proof.
  intros Ho Hst Hmv%already_applied_false Hall%sufficient_items.
  erewrite complete_reserved by done. unfold set_orders.
  cbn [fst snd products movements items orders].
  rewrite reserve_items_log, reserve_items_items, reserve_items_orders.
  split_and!; try done.
  intros p. rewrite reserve_items_products.
  by destruct (products db !! p).
Qed.

Lemma complete_sells_every_item_witness :
  stock <$> products (complete db_unsold 2 200).1 !! 2 = Some 5 ∧
  movements (complete db_unsold 2 200).1 =
  [mkMovement 2 2 "salida" "venta" 200].
Proof.
  pose proof (complete_sells_every_item db_unsold 2 200
                (mkOrder "bob" 500 PENDING 100 100 CHANGE_CREATED)
                eq_refl eq_refl) as H.
  destruct H as (Hstock & Hlog & _).
  - exists (mkOrderItem 2 2 2 250, mkProduct "ink" 250 7).
    split; [vm_compute; left | reflexivity].
  - vm_compute. repeat constructor; discriminate.
  - split; [rewrite Hstock; reflexivity | rewrite Hlog; reflexivity].
Defined.

(** [complete] on a pending order without rows succeeds: it sells nothing
    and marks the order completed. *)
Theorem complete_empty_order db k now o :
  orders db !! k = Some o → status o = PENDING →
  Forall (λ it, order_id it ≠ k) (items db) →
  complete db k now =
  (mkDB (products db)
        (<[k := mkOrder (customer_name o) (total o) COMPLETED (created_at o)
                        now CHANGE_COMPLETED]> (orders db))
        (items db) (movements db),
   Return (mkResponse
             (OrderData (mkOrder (customer_name o) (total o) COMPLETED
                                 (created_at o) now CHANGE_COMPLETED))
             HTTP_200_OK)).
Proof.
  intros Ho Hst Hnone. apply complete_sold; [done..|].
  apply Forall_forall. intros [it pr] (Hin & Hk & _)%elem_of_order_items.
  rewrite Forall_forall in Hnone. by destruct (Hnone it Hin).
Qed.

Lemma complete_empty_order_witness :
  status <$> orders (complete db_new 7 200).1 !! 7 = Some COMPLETED ∧
  movements (complete db_new 7 200).1 = movements db_new.
Proof.
  rewrite (complete_empty_order db_new 7 200 (new_order "ana" 100)
             eq_refl eq_refl (Forall_nil_2 _)).
  split; reflexivity.
Defined.

(** A second [complete] after a successful one answers 400 "Order is
    already completed." and changes nothing: nothing is sold twice. *)
Theorem complete_twice db k t1 t2 d :
  (complete db k t1).2 = Return (mkResponse d HTTP_200_OK) →
  complete (complete db k t1).1 k t2 =
  ((complete db k t1).1,
   Return (bad_request (Detail "Order is already completed."))).
Proof.
  intros Hok.
  assert (∃ o, orders (complete db k t1).1 !! k = Some o
               ∧ status o = COMPLETED) as (o1 & Ho1 & Hst1).
  { revert Hok. change (complete db k t1) with (handle db t1 (Complete k)).
    by_service db t1 (Complete k); unfold set_orders; cbn [fst snd orders];
      intros [=]; eexists; (split; [apply lookup_insert_eq|done]). }
  unfold complete at 1, get_object. rewrite Ho1. cbn [fields].
  by rewrite Hst1.
Qed.

Lemma complete_twice_witness :
  complete (complete db0 2 200).1 2 201 =
  ((complete db0 2 200).1,
   Return (bad_request (Detail "Order is already completed."))).
Proof.
  apply (complete_twice db0 2 200 201
           (OrderData (mkOrder "bob" 500 COMPLETED 100 200 CHANGE_COMPLETED))).
  reflexivity.
Defined.

(** ** Stock never goes below zero *)

(** With one row per (order, product), the rows of an order ask a product
    for nothing or for the quantity of a single row. *)
Lemma asked_single db k p : ∀ l,
  NoDup (row_key <$> l) →
  let its :=
    omap (λ it, if decide (order_id it = k)
                then (λ pr, (it, pr)) <$> products db !! product_id it
                else None) l in
  asked p its = 0 ∨
  ∃ it pr, (it, pr) ∈ its ∧ product_id it = p ∧ asked p its = quantity it.
Proof.
  induction l as [|x l IH]; intros Hnd its; [by left|].
  rewrite fmap_cons in Hnd. apply NoDup_cons in Hnd as [Hx Hnd].
  specialize (IH Hnd). cbn zeta in IH. subst its. cbn [omap list_omap].
  destruct (decide (order_id x = k)) as [Hk|Hk]; [|exact IH].
  destruct (products db !! product_id x) as [pr|] eqn:Hpr; [|exact IH].
  cbn [fmap option_fmap option_map]. rewrite asked_cons. cbn [fst].
  destruct (decide (product_id x = p)) as [Hp|Hp].
  - right. exists x, pr. split; [left|]. split; [done|].
    destruct IH as [-> | (it & pr' & Hin & Hpid & _)]; [lia|].
    apply list_elem_of_omap in Hin as (it' & Hin' & Hf).
    case_decide as Hk'; [|done].
    destruct (products db !! product_id it'); [|done].
    cbn in Hf. injection Hf as -> _.
    destruct Hx. apply list_elem_of_fmap. exists it. split; [|done].
    unfold row_key. congruence.
  - destruct IH as [-> | (it & pr' & Hin & Hpid & Hasked)]; [by left|].
    right. exists it, pr'. split; [by right|]. split; [done|]. lia.
Qed.

Lemma handle_stock_nonneg db now r :
  positive_payload r →
  Forall (λ it, 0 < quantity it) (items db) →
  NoDup (row_key <$> items db) →
  (∀ p pr, products db !! p = Some pr → 0 ≤ stock pr) →
  ∀ p pr, products (handle db now r).1 !! p = Some pr → 0 ≤ stock pr.
Proof.
  intros Hpos Hq Hnd Hstock p pr'.
  by_service db now r; unfold set_orders;
    cbn [fst products positive_payload] in *;
    try (by apply Hstock).
  - rewrite reserve_items_products.
    destruct (products db !! p) as [pr|] eqn:Hp; [|done].
    intros [= <-]. cbn. pose proof (Hstock _ _ Hp) as Hnonneg.
    destruct (asked_single db k p (items db) Hnd)
      as [Hzero | (it & prx & Hin & Hpid & Hone)];
      fold (order_items db k) in *; [lia|].
    match goal with H : insufficient_items _ _ = [] |- _ =>
      apply sufficient_items in H; rewrite Forall_forall in H;
      specialize (H _ Hin); cbn in H end.
    apply elem_of_order_items in Hin as (_ & _ & Hprx).
    rewrite Hpid, Hp in Hprx. injection Hprx as <-. lia.
  - at_key p; [intros [= <-]; cbn; lia | by apply Hstock].
  - at_key p; [intros [= <-]; cbn; lia | by apply Hstock].
  - match goal with H : first_item _ _ _ = Some _ |- _ =>
      apply first_item_lookup in H as (Hi & _ & _) end.
    pose proof (Forall_lookup_1 _ _ _ _ Hq Hi) as Hit. cbn in Hit.
    at_key p; [|by apply Hstock].
    intros [= <-]. cbn.
    match goal with H : products db !! _ = Some _ |- _ =>
      pose proof (Hstock _ _ H) end. lia.
Qed.

(** If no stock is negative, every stored quantity is positive and every
    (order, product) pair has at most one row, then after a request with a
    positive quantity in its payload no stock is negative. *)
Theorem stock_never_negative db now r :
  positive_payload r →
  Forall (λ it, 0 < quantity it) (items db) →
  NoDup (row_key <$> items db) →
  (∀ p pr, products db !! p = Some pr → 0 ≤ stock pr) →
  ∀ p pr, products (handle db now r).1 !! p = Some pr → 0 ≤ stock pr.
Proof. apply handle_stock_nonneg. Qed.

Lemma stock_never_negative_witness :
  products (handle db0 200 (AddItem 2 2 3)).1 !! 2
  = Some (mkProduct "ink" 250 4) ∧
  0 ≤ stock (mkProduct "ink" 250 4).
Proof.
  split; [reflexivity|].
  apply (stock_never_negative db0 200 (AddItem 2 2 3)) with (p := 2).
  - cbn. lia.
  - repeat constructor.
  - vm_compute. repeat constructor; intros Hin; inversion Hin; subst;
      match goal with H : _ ∈ [] |- _ => inversion H
                    | H : _ ∈ _ :: _ |- _ => inversion H end.
  - intros p pr Hp. unfold db0 in Hp. cbn [products] in Hp.
    apply lookup_insert_Some in Hp as [[_ <-] | [_ Hp]]; [cbn; lia|].
    apply lookup_insert_Some in Hp as [[_ <-] | [_ Hp]]; [cbn; lia|].
    by rewrite lookup_empty in Hp.
  - reflexivity.
Defined.

(** ** Two additions of the same product *)

(** Two [add_item] requests for the same product of a pending order, with
    the stock covering both, end in one row for the product: the row that
    existed, or the one the first request created, holds the sum of the two
    quantities; the stock has lost the sum, and the total has gained the sum
    times the price of the row. *)
Theorem add_item_twice_merges db k p q1 q2 t1 t2 o pr :
  orders db !! k = Some o → status o = PENDING →
  products db !! p = Some pr →
  q1 + q2 ≤ stock pr → 0 ≤ q2 →
  let db2 := (add_item (add_item db k p q1 t1).1 k p q2 t2).1 in
  stock <$> products db2 !! p = Some (stock pr - (q1 + q2)) ∧
  match first_item db k p with
  | Some (i, it) =>
      items db2 = <[i := mkOrderItem (order_id it) (product_id it)
                                     (quantity it + (q1 + q2)) (price it)]>
                    (items db)
      ∧ total <$> orders db2 !! k = Some (total o + (q1 + q2) * price it)
  | None =>
      items db2 = items db ++ [mkOrderItem k p (q1 + q2) (unit_price pr)]
      ∧ total <$> orders db2 !! k
        = Some (total o + (q1 + q2) * unit_price pr)
  end.
Proof.
  intros Ho Hst%closed_false Hp Hq Hq2 db2. subst db2.
  destruct (first_item db k p) as [[i it]|] eqn:Hfirst.
  - destruct (first_item_lookup _ _ _ _ _ Hfirst) as (Hi & Hk & Hpid).
    rewrite (add_item_merge db k p q1 t1 o pr i it Ho Hst Hp ltac:(lia)
               Hfirst). cbn [fst].
    match goal with |- context [add_item ?d _ _ _ _] => set (db1 := d) end.
    assert (first_item db1 k p
            = Some (i, mkOrderItem (order_id it) (product_id it)
                                   (quantity it + q1) (price it))) as Hfirst1
      by (by eapply first_item_after_merge).
    rewrite (add_item_merge db1 k p q2 t2 _ _ i _
               (lookup_insert_eq _ _ _) Hst (lookup_insert_eq _ _ _)
               ltac:(cbn; lia) Hfirst1).
    subst db1.
    cbn [fst products orders items quantity price order_id product_id stock
         total with_total mark].
    rewrite !lookup_insert_eq, list_insert_insert_eq. cbn.
    split; [f_equal; lia|]. split; [do 2 f_equal; lia | f_equal; lia].
  - rewrite (add_item_create db k p q1 t1 o pr Ho Hst Hp ltac:(lia) Hfirst).
    cbn [fst].
    match goal with |- context [add_item ?d _ _ _ _] => set (db1 := d) end.
    assert (first_item db1 k p
            = Some (length (items db), mkOrderItem k p q1 (unit_price pr)))
      as Hfirst1 by (by eapply first_item_after_create).
    rewrite (add_item_merge db1 k p q2 t2 _ _ _ _
               (lookup_insert_eq _ _ _) Hst (lookup_insert_eq _ _ _)
               ltac:(cbn; lia) Hfirst1).
    subst db1.
    cbn [fst products orders items quantity price order_id product_id stock
         total with_total mark].
    rewrite !lookup_insert_eq. cbn.
    split; [f_equal; lia|]. split; [|f_equal; lia].
    rewrite insert_app_r_alt, Nat.sub_diag by done. reflexivity.
Qed.

Lemma add_item_twice_merges_witness :
  items (add_item (add_item db0 2 2 3 200).1 2 2 4 201).1 =
  [mkOrderItem 1 1 5 1000; mkOrderItem 2 2 9 250] ∧
  stock <$> products (add_item (add_item db0 2 2 3 200).1 2 2 4 201).1 !! 2
  = Some 0.
Proof.
  pose proof (add_item_twice_merges db0 2 2 3 4 200 201
                (mkOrder "bob" 500 PENDING 100 100 CHANGE_CREATED)
                (mkProduct "ink" 250 7) eq_refl eq_refl eq_refl
                ltac:(cbn; lia) ltac:(lia)) as H.
  vm_compute in H. vm_compute. destruct H as (Hs & Hi & _). by split.
Defined.

(** * The listing of orders *)

Global Instance newest_first_trans : Transitive newest_first.
Proof. unfold newest_first. intros x y z ? ?. lia. Qed.

Global Instance newest_first_total : Total newest_first.
Proof. unfold newest_first. intros x y. lia. Qed.

Lemma StronglySorted_sublist_of {A} (R : relation A) (l1 l2 : list A) :
  l1 `sublist_of` l2 → StronglySorted R l2 → StronglySorted R l1.
Proof.
  induction 1 as [|x l1 l2 Hsub IH|x l1 l2 Hsub IH]; [done| |].
  - intros [Hx Hl2]%StronglySorted_cons. apply StronglySorted_cons.
    split; [|by apply IH]. rewrite Forall_forall in *.
    intros y Hy. apply Hx. by eapply elem_of_sublist.
  - intros [_ Hl2]%StronglySorted_cons. by apply IH.
Qed.

Lemma sublist_fst {A B} (l1 l2 : list (A * B)) :
  l1 `sublist_of` l2 → l1.*1 `sublist_of` l2.*1.
Proof.
  induction 1 as [|x l1 l2 Hsub IH|x l1 l2 Hsub IH]; cbn.
  - constructor.
  - by apply sublist_skip.
  - by apply sublist_cons.
Qed.

Lemma elem_of_ordered_orders db k o :
  (k, o) ∈ ordered_orders db ↔ orders db !! k = Some o.
Proof.
  unfold ordered_orders. rewrite merge_sort_Permutation.
  apply elem_of_map_to_list.
Qed.

Lemma ordered_orders_sorted db :
  StronglySorted newest_first (ordered_orders db).
Proof. apply StronglySorted_merge_sort; apply _. Qed.

Lemma ordered_orders_NoDup db : NoDup (ordered_orders db).*1.
Proof.
  unfold ordered_orders. rewrite merge_sort_Permutation.
  apply NoDup_fst_map_to_list.
Qed.

Lemma elem_of_filter_text col v qs ko :
  ko ∈ filter_text col v qs ↔ ko ∈ qs ∧ text_matches col v ko.2.
Proof.
  unfold filter_text, text_matches. destruct (truthy v) as [s|].
  - rewrite list_elem_of_filter. split.
    + intros [Hcol Hin]. split; [done|]. by intros s' [= <-].
    + intros [Hin Hcol]. split; [by apply Hcol|done].
  - split; [|by intros []]. intros Hin. split; [done|]. by intros s [=].
Qed.

Lemma filter_text_sublist col v qs : filter_text col v qs `sublist_of` qs.
Proof.
  unfold filter_text. destruct (truthy v); [apply sublist_filter|done].
Qed.

Section ListingFacts.
Variable parse_date : string → Exception + option Z.
Variable date : Z → Z.

Lemma elem_of_filter_date_gte col v qs qs' ko :
  filter_date_gte parse_date date col v qs = inr qs' →
  ko ∈ qs' ↔ ko ∈ qs ∧ on_or_after parse_date date col v ko.2.
Proof.
  unfold filter_date_gte, on_or_after. destruct (truthy v) as [raw|].
  - destruct (parse_date raw) as [e|[d|]] eqn:Hd; intros [= <-].
    + rewrite list_elem_of_filter. split.
      * intros [Hle Hin]. split; [done|].
        intros raw' d' [= <-]. rewrite Hd. by intros [= <-].
      * intros [Hin Hle]. split; [by eapply Hle|done].
    + split; [|by intros []]. intros Hin. split; [done|].
      intros raw' d' [= <-]. by rewrite Hd.
  - intros [= <-]. split; [|by intros []]. intros Hin. split; [done|].
    by intros raw d [=].
Qed.

Lemma elem_of_filter_date_lte col v qs qs' ko :
  filter_date_lte parse_date date col v qs = inr qs' →
  ko ∈ qs' ↔ ko ∈ qs ∧ on_or_before parse_date date col v ko.2.
Proof.
  unfold filter_date_lte, on_or_before. destruct (truthy v) as [raw|].
  - destruct (parse_date raw) as [e|[d|]] eqn:Hd; intros [= <-].
    + rewrite list_elem_of_filter. split.
      * intros [Hle Hin]. split; [done|].
        intros raw' d' [= <-]. rewrite Hd. by intros [= <-].
      * intros [Hin Hle]. split; [by eapply Hle|done].
    + split; [|by intros []]. intros Hin. split; [done|].
      intros raw' d' [= <-]. by rewrite Hd.
  - intros [= <-]. split; [|by intros []]. intros Hin. split; [done|].
    by intros raw d [=].
Qed.

Lemma filter_date_gte_sublist col v qs qs' :
  filter_date_gte parse_date date col v qs = inr qs' → qs' `sublist_of` qs.
Proof.
  unfold filter_date_gte. destruct (truthy v) as [raw|]; [|by intros [= <-]].
  destruct (parse_date raw) as [e|[d|]]; intros [= <-];
    [apply sublist_filter|done].
Qed.

Lemma filter_date_lte_sublist col v qs qs' :
  filter_date_lte parse_date date col v qs = inr qs' → qs' `sublist_of` qs.
Proof.
  unfold filter_date_lte. destruct (truthy v) as [raw|]; [|by intros [= <-]].
  destruct (parse_date raw) as [e|[d|]]; intros [= <-];
    [apply sublist_filter|done].
Qed.

(** The steps of a listing that did not raise. *)
Lemma get_queryset_steps db q qs :
  get_queryset parse_date date db q = inr qs →
  ∃ qs1 qs2 qs3,
    filter_date_gte parse_date date created_at (q_date_from q)
      (filter_text (λ o, status_value (status o)) (q_status q)
                   (ordered_orders db)) = inr qs1 ∧
    filter_date_lte parse_date date created_at (q_date_to q) qs1 = inr qs2 ∧
    filter_date_gte parse_date date last_change_at (q_last_change_from q)
      (filter_text (λ o, change_value (last_change_type o))
                   (q_last_change_type q) qs2) = inr qs3 ∧
    filter_date_lte parse_date date last_change_at (q_last_change_to q) qs3
    = inr qs.
Proof.
  unfold get_queryset, and_then.
  destruct (filter_date_gte _ _ created_at _ _) as [|qs1] eqn:H1; [done|].
  destruct (filter_date_lte _ _ created_at _ _) as [|qs2] eqn:H2; [done|].
  destruct (filter_date_gte _ _ last_change_at _ _) as [|qs3] eqn:H3; [done|].
  intros H4. by exists qs1, qs2, qs3.
Qed.

(** A listing that does not raise holds exactly the orders its parameters
    select: the order exists, and it passes the status filter, the
    change-type filter and the four date filters, each of which asks
    nothing when its parameter is absent or empty, and each date filter
    also when the text is not formatted as a date. *)
Theorem get_queryset_selects db q qs k o :
  get_queryset parse_date date db q = inr qs →
  (k, o) ∈ qs ↔ orders db !! k = Some o ∧ selected parse_date date q o.
Proof.
  intros (qs1 & qs2 & qs3 & H1 & H2 & H3 & H4)%get_queryset_steps.
  rewrite (elem_of_filter_date_lte _ _ _ _ _ H4).
  rewrite (elem_of_filter_date_gte _ _ _ _ _ H3), elem_of_filter_text.
  rewrite (elem_of_filter_date_lte _ _ _ _ _ H2).
  rewrite (elem_of_filter_date_gte _ _ _ _ _ H1), elem_of_filter_text.
  rewrite elem_of_ordered_orders. unfold selected. cbn [snd]. tauto.
Qed.

(** A listing that does not raise is ordered by creation time, the most
    recent first, whatever the filters, and holds no order twice. *)
Theorem get_queryset_newest_first db q qs :
  get_queryset parse_date date db q = inr qs →
  StronglySorted newest_first qs ∧ NoDup qs.*1.
Proof.
  intros (qs1 & qs2 & qs3 & H1 & H2 & H3 & H4)%get_queryset_steps.
  assert (qs `sublist_of` ordered_orders db) as Hsub.
  { etrans; [by eapply filter_date_lte_sublist|].
    etrans; [by eapply filter_date_gte_sublist|].
    etrans; [apply filter_text_sublist|].
    etrans; [by eapply filter_date_lte_sublist|].
    etrans; [by eapply filter_date_gte_sublist|].
    apply filter_text_sublist. }
  split.
  - eapply StronglySorted_sublist_of; [exact Hsub|].
    apply ordered_orders_sorted.
  - eapply sublist_NoDup; [apply ordered_orders_NoDup|].
    by apply sublist_fst.
Qed.

(** Without parameters, and with empty ones, the listing is every order;
    then [get_object] finds an order exactly when the listing holds it. *)
Theorem get_queryset_without_filters db q :
  truthy (q_status q) = None → truthy (q_date_from q) = None →
  truthy (q_date_to q) = None → truthy (q_last_change_type q) = None →
  truthy (q_last_change_from q) = None →
  truthy (q_last_change_to q) = None →
  get_queryset parse_date date db q = inr (ordered_orders db) ∧
  ∀ k o, (k, o) ∈ ordered_orders db ↔
         get_object db k = inr (mkInstance k o None).
Proof.
  intros Hs Hf Ht Hc Hcf Hct. split.
  - unfold get_queryset, and_then, filter_text, filter_date_gte,
      filter_date_lte.
    by rewrite Hs, Hf, Ht, Hc, Hcf, Hct.
  - intros k o. rewrite elem_of_ordered_orders. unfold get_object.
    destruct (orders db !! k); split; intros [=]; by subst.
Qed.
End ListingFacts.

Lemma get_queryset_selects_witness :
  orders db0 !! 3 = Some (mkOrder "eva" 0 COMPLETED 100 110 CHANGE_COMPLETED) ∧
  selected example_parse_date example_date
    (mkParams None None None (Some "completed") None None)
    (mkOrder "eva" 0 COMPLETED 100 110 CHANGE_COMPLETED).
Proof.
  apply (proj1 (get_queryset_selects example_parse_date example_date db0
                  (mkParams None None None (Some "completed") None None)
                  [(3, mkOrder "eva" 0 COMPLETED 100 110 CHANGE_COMPLETED)]
                  3 (mkOrder "eva" 0 COMPLETED 100 110 CHANGE_COMPLETED)
                  ltac:(vm_compute; reflexivity))).
  left.
Defined.

Lemma get_queryset_newest_first_witness :
  StronglySorted newest_first
    [(2, mkOrder "bob" 500 PENDING 100 100 CHANGE_CREATED);
     (1, mkOrder "ana" 5000 PENDING 100 105 CHANGE_UPDATE)] ∧
  NoDup [2; 1].
Proof.
  apply (get_queryset_newest_first example_parse_date example_date db0
           (mkParams (Some "pendiente") (Some "day-10") (Some "") None
                     (Some "yesterday") None)).
  vm_compute. reflexivity.
Defined.

Lemma get_queryset_without_filters_witness :
  get_queryset example_parse_date example_date db0
    (mkParams (Some "") None None None (Some "") None)
  = inr (ordered_orders db0).
Proof.
  apply (get_queryset_without_filters example_parse_date example_date db0
           (mkParams (Some "") None None None (Some "") None));
    reflexivity.
Defined.

(** * Sequences of requests *)

(** Whatever sequence of requests with positive quantities is served,
    a database without negative stock, with positive quantities, at most
    one row per (order, product) and consistent totals stays so. *)
Theorem run_stays_well_formed db trace :
  Forall (λ tr : Z * Request, positive_payload tr.2) trace →
  well_formed db → well_formed (run db trace).
Proof.
  revert db. induction trace as [|[t r] trace IH]; intros db Hpos Hwf; [done|].
  apply Forall_cons in Hpos as [Hr Hpos]. cbn in Hr.
  destruct Hwf as (Hstock & Hq & Hnd & Htot).
  apply IH; [done|]. split_and!.
  - by apply handle_stock_nonneg.
  - by apply handle_quantities_positive.
  - by apply handle_row_keys_NoDup.
  - by apply handle_total_consistent.
Qed.

Lemma run_stays_well_formed_witness :
  well_formed (run db_new [(200, AddItem 7 2 3); (201, RemoveItem 7 2 5);
                           (202, AddItem 7 1 2); (203, Complete 7)]).
Proof.
  apply (run_stays_well_formed db_new).
  - repeat constructor; cbn; lia.
  - split_and!.
    + intros p pr Hp. unfold db_new, db0 in Hp. cbn [products] in Hp.
      apply lookup_insert_Some in Hp as [[_ <-] | [_ Hp]]; [cbn; lia|].
      apply lookup_insert_Some in Hp as [[_ <-] | [_ Hp]]; [cbn; lia|].
      by rewrite lookup_empty in Hp.
    + constructor.
    + constructor.
    + apply new_order_consistent.
Defined.
